(** * mdload: classification and download orchestration

    A shallow embedding of [mdload.py]: the metadata classifier
    [has_video], the option builder [build_base_opts], the header parser
    [parse_headers], the batch loop [download_entries] and the command-line
    entry point [main], followed by the properties proved about them.

    Python values are modelled by [pyval] (the JSON-shaped fragment the
    program handles: None, bool, int, str, list, dict with string keys;
    numbers are integers, floating point is left out). Dictionaries are
    association lists in insertion order, since [repr] and iteration
    depend on the order. The yt-dlp object, the file system and the
    terminal are an interface ([External]); library functions the script
    calls but does not define ([json.loads], [repr] of a str,
    [os.path.abspath], [str.strip], [str.lower]) are an interface too
    ([PyBuiltins]). *)

From Stdlib Require Import String Ascii List ZArith Bool Lia DecimalString.
Import ListNotations.
Open Scope string_scope.
Set Warnings "-register-all".

(* ================================================================== *)
(** * Python values *)
(* ================================================================== *)

Inductive pyval : Type :=
| PNone
| PBool (b : bool)
| PInt (z : Z)
| PStr (s : string)
| PList (l : list pyval)
| PDict (d : list (string * pyval)).

Definition pydict : Type := list (string * pyval).

(** Exceptions deriving from [Exception]: class name and [str(e)]. *)
Record exn : Type := Exn { exn_class : string; exn_msg : string }.

Inductive result (A : Type) : Type :=
| Ok (a : A)
| Raise (e : exn).
Arguments Ok {A} a.
Arguments Raise {A} e.

Definition rbind {A B : Type} (r : result A) (k : A -> result B) : result B :=
  match r with
  | Ok a => k a
  | Raise e => Raise e
  end.

Declare Scope result_scope.
Delimit Scope result_scope with result.
Notation "x <-- r ; k" := (rbind r (fun x => k))
  (at level 61, r at next level, right associativity) : result_scope.

(** Truth value testing: [bool(v)]. *)
Definition py_truthy (v : pyval) : bool :=
  match v with
  | PNone => false
  | PBool b => b
  | PInt z => negb (z =? 0)%Z
  | PStr s => negb (s =? "")
  | PList l => match l with [] => false | _ :: _ => true end
  | PDict d => match d with [] => false | _ :: _ => true end
  end.

(** [a or b] on already evaluated operands. *)
Definition py_or (a b : pyval) : pyval := if py_truthy a then a else b.

(** [v != s] for a str literal [s]. *)
Definition py_ne_str (v : pyval) (s : string) : bool :=
  match v with
  | PStr s' => negb (s' =? s)
  | _ => true
  end.

(** [isinstance(v, dict)]. *)
Definition is_dict (v : pyval) : bool :=
  match v with
  | PDict _ => true
  | _ => false
  end.

(** [type(v).__name__]. *)
Definition type_name (v : pyval) : string :=
  match v with
  | PNone => "NoneType"
  | PBool _ => "bool"
  | PInt _ => "int"
  | PStr _ => "str"
  | PList _ => "list"
  | PDict _ => "dict"
  end.

Definition attribute_error (v : pyval) (attr : string) : exn :=
  Exn "AttributeError"
      ("'" ++ type_name v ++ "' object has no attribute '" ++ attr ++ "'").

Definition not_iterable_error (v : pyval) : exn :=
  Exn "TypeError" ("'" ++ type_name v ++ "' object is not iterable").

(** ** Dictionaries *)

Fixpoint dict_lookup (d : pydict) (k : string) : option pyval :=
  match d with
  | [] => None
  | (k', v) :: rest => if k' =? k then Some v else dict_lookup rest k
  end.

(** [d.get(k)]: the value, or None for a missing key. *)
Definition dict_get (d : pydict) (k : string) : pyval :=
  match dict_lookup d k with
  | Some v => v
  | None => PNone
  end.

(** [d[k] = v]: an existing key keeps its position, a new one goes last. *)
Fixpoint dict_set (d : pydict) (k : string) (v : pyval) : pydict :=
  match d with
  | [] => [(k, v)]
  | (k', v') :: rest =>
      if k' =? k then (k', v) :: rest else (k', v') :: dict_set rest k v
  end.

(** [d.update(d2)]. *)
Definition dict_update (d d2 : pydict) : pydict :=
  fold_left (fun acc kv => dict_set acc (fst kv) (snd kv)) d2 d.

(** [del d[k]] for every occurrence; used to compare dictionaries up to
    some keys. *)
Fixpoint dict_remove (d : pydict) (k : string) : pydict :=
  match d with
  | [] => []
  | (k', v) :: rest =>
      if k' =? k then dict_remove rest k else (k', v) :: dict_remove rest k
  end.

(** [v.get(k)]: only a dict has the method. *)
Definition py_get (v : pyval) (k : string) : result pyval :=
  match v with
  | PDict d => Ok (dict_get d k)
  | _ => Raise (attribute_error v "get")
  end.

Fixpoint chars_of (s : string) : list pyval :=
  match s with
  | EmptyString => []
  | String c rest => PStr (String c EmptyString) :: chars_of rest
  end.

(** The elements a [for] loop over [v] visits. *)
Definition py_iter (v : pyval) : result (list pyval) :=
  match v with
  | PList l => Ok l
  | PDict d => Ok (map (fun kv => PStr (fst kv)) d)
  | PStr s => Ok (chars_of s)
  | _ => Raise (not_iterable_error v)
  end.

(** ** posixpath.join on two components *)

Definition starts_with_sep (s : string) : bool :=
  match s with
  | String c _ => (c =? "/")%char
  | EmptyString => false
  end.

Fixpoint ends_with_sep (s : string) : bool :=
  match s with
  | EmptyString => false
  | String c EmptyString => (c =? "/")%char
  | String _ rest => ends_with_sep rest
  end.

Definition os_path_join (a b : string) : string :=
  if starts_with_sep b then b
  else if (a =? "") || ends_with_sep a then a ++ b
  else a ++ "/" ++ b.

(* ================================================================== *)
(** * The pure functions of mdload.py *)
(* ================================================================== *)

(** The [for f in formats] loop of [has_video]: [Ok true] stands for the
    [return True] inside the loop, [Ok false] for falling out of it. *)
Fixpoint formats_loop (formats : list pyval) : result bool :=
  match formats with
  | [] => Ok false
  | f :: rest =>
      (vcodec <-- py_get f "vcodec";
       if py_truthy vcodec && py_ne_str vcodec "none"
       then Ok true
       else formats_loop rest)%result
  end.

Definition has_video (info : pyval) : result bool :=
  (got <-- py_get info "formats";
   formats <-- py_iter (py_or got (PList []));
   found <-- formats_loop formats;
   if found then Ok true
   else
     is_live <-- py_get info "is_live";
     width <-- py_get info "width";
     height <-- py_get info "height";
     if py_truthy (py_or (py_or is_live width) height)
     then Ok true
     else Ok false)%result.

Definition outtmpl_pattern : string := "%(title)s - %(id)s.%(ext)s".

(** An [Optional[str]] argument under [if x:]. *)
Definition opt_str_truthy (o : option string) : bool :=
  match o with
  | Some s => negb (s =? "")
  | None => false
  end.

Definition set_opt_str (opts : pydict) (k : string) (o : option string)
  : pydict :=
  if opt_str_truthy o then
    match o with
    | Some s => dict_set opts k (PStr s)
    | None => opts
    end
  else opts.

(** An [Optional[Dict[str, str]]] argument under [if x:]. *)
Definition opt_dict_truthy (o : option pydict) : bool :=
  match o with
  | Some h => py_truthy (PDict h)
  | None => false
  end.

Definition set_opt_headers (opts : pydict) (headers : option pydict)
  : pydict :=
  if opt_dict_truthy headers then
    match headers with
    | Some h => dict_set opts "http_headers" (PDict h)
    | None => opts
    end
  else opts.

Definition build_base_opts (outdir : string) (quiet : bool)
  (cookiefile username password : option string)
  (headers : option pydict) : pydict :=
  let opts : pydict :=
    [ ("quiet", PBool quiet);
      ("no_warnings", PBool quiet);
      ("outtmpl", PStr (os_path_join outdir outtmpl_pattern));
      ("ignoreerrors", PBool true) ] in
  let opts := set_opt_str opts "cookiefile" cookiefile in
  let opts := set_opt_str opts "username" username in
  let opts := set_opt_str opts "password" password in
  let opts := set_opt_headers opts headers in
  opts.

(** The two [opts.update({...})] argument literals of [download_entries]. *)
Definition video_update : pydict :=
  [ ("format", PStr "bestvideo+bestaudio/best");
    ("merge_output_format", PStr "mp4");
    ("postprocessors",
      PList [ PDict [ ("key", PStr "FFmpegVideoConvertor");
                      ("preferedformat", PStr "mp4") ] ]) ].

Definition audio_update : pydict :=
  [ ("format", PStr "bestaudio/best");
    ("postprocessors",
      PList [ PDict [ ("key", PStr "FFmpegExtractAudio");
                      ("preferredcodec", PStr "mp3");
                      ("preferredquality", PStr "192") ] ]) ].

(** Lines 161-187: the per-entry options, from the classification. *)
Definition entry_opts (outdir : string) (quiet : bool)
  (cookiefile username password : option string)
  (headers : option pydict) (is_video : bool) : pydict :=
  let opts := build_base_opts outdir quiet cookiefile username password headers in
  if is_video then dict_update opts video_update
  else dict_update opts audio_update.

(** Lines 129-136: the [for e in ...: if e: entries.append(e)] loop. *)
Fixpoint append_truthy (acc : list pyval) (l : list pyval) : list pyval :=
  match l with
  | [] => acc
  | e :: rest =>
      if py_truthy e then append_truthy (acc ++ [e]) rest
      else append_truthy acc rest
  end.

Definition normalize_entries (initial_info : pyval) : result (list pyval) :=
  match initial_info with
  | PDict d =>
      if py_truthy (dict_get d "entries") then
        (l <-- py_iter (py_or (dict_get d "entries") (PList []));
         Ok (append_truthy [] l))%result
      else Ok [initial_info]
  | _ => Ok [initial_info]
  end.

(* ================================================================== *)
(** * Library functions and the outside world *)
(* ================================================================== *)

(** Functions of the Python library that the script calls. *)
Class PyBuiltins : Type := {
  (** [repr(s)] for a str [s] *)
  repr_str : string -> string;
  (** [json.loads(s)]; a malformed text raises [JSONDecodeError] *)
  json_loads : string -> result pyval;
  (** [os.path.abspath(p)] *)
  os_path_abspath : string -> string;
  (** [s.strip()] *)
  str_strip : string -> string;
  (** [s.lower()] *)
  str_lower : string -> string
}.

(** The collaborators with effects. [ydl_extract_info opts arg] is the block
    [with YoutubeDL(opts) as ydl: ydl.extract_info(arg, download=False)]
    and [ydl_download opts urls] the block
    [with YoutubeDL(opts) as ydl: ydl.download(urls)], each as a whole. *)
Class External : Type := {
  world : Type;
  ydl_extract_info : pydict -> pyval -> world -> result pyval * world;
  ydl_download : pydict -> list pyval -> world -> result Z * world;
  os_makedirs : string -> world -> result unit * world;
  os_path_isfile : string -> world -> bool * world;
  py_input : string -> world -> result string * world
}.

(** What a run does that can be observed from outside, in order. *)
Inductive event : Type :=
| Stdout (text : string)
| Stderr (text : string)
| ExtractInfo (opts : pydict) (arg : pyval) (r : result pyval)
| Download (opts : pydict) (urls : list pyval) (r : result Z)
| Makedirs (path : string) (r : result unit)
| Isfile (path : string) (b : bool)
| Input (prompt : string) (r : result string).

(** How a statement ends: normally, with an exception deriving from
    [Exception], or with [SystemExit] (which [except Exception] lets
    through). *)
Inductive outcome (A : Type) : Type :=
| Done (a : A)
| Throw (e : exn)
| SysExit (code : Z).
Arguments Done {A} a.
Arguments Throw {A} e.
Arguments SysExit {A} code.

Definition nl : string := String "010"%char EmptyString.
Definition dq : string := String "034"%char EmptyString.

Section Program.

Context {B : PyBuiltins} {X : External}.

(** ** str() and repr() *)

Fixpoint py_repr (v : pyval) : string :=
  match v with
  | PNone => "None"
  | PBool true => "True"
  | PBool false => "False"
  | PInt z => NilZero.string_of_int (Z.to_int z)
  | PStr s => repr_str s
  | PList l => "[" ++ String.concat ", " (map py_repr l) ++ "]"
  | PDict d =>
      "{" ++ String.concat ", "
               (map (fun kv => match kv with
                               | (k, v') => repr_str k ++ ": " ++ py_repr v'
                               end) d) ++ "}"
  end.

Definition py_str (v : pyval) : string :=
  match v with
  | PStr s => s
  | _ => py_repr v
  end.

(** ** Statements: a computation reads and changes the world, emits
    events and ends in an [outcome]. *)

Definition M (A : Type) : Type := world -> outcome A * list event * world.

Definition ret {A : Type} (a : A) : M A := fun w => (Done a, [], w).

Definition throw {A : Type} (e : exn) : M A := fun w => (Throw e, [], w).

Definition sys_exit {A : Type} (code : Z) : M A :=
  fun w => (SysExit code, [], w).

(** The events [t] happened before the run [r]. *)
Definition prepend {A : Type} (t : list event)
  (r : outcome A * list event * world) : outcome A * list event * world :=
  match r with
  | (o, t', w) => (o, (t ++ t')%list, w)
  end.

Definition bind {A C : Type} (m : M A) (k : A -> M C) : M C :=
  fun w =>
    match m w with
    | (Done a, t, w1) => prepend t (k a w1)
    | (Throw e, t, w1) => (Throw e, t, w1)
    | (SysExit c, t, w1) => (SysExit c, t, w1)
    end.

(** [try: m  except Exception as e: handler e]. *)
Definition try_except {A : Type} (m : M A) (handler : exn -> M A) : M A :=
  fun w =>
    match m w with
    | (Throw e, t, w1) => prepend t (handler e w1)
    | other => other
    end.

Definition lift {A : Type} (r : result A) : M A :=
  match r with
  | Ok a => ret a
  | Raise e => throw e
  end.

Definition emit (ev : event) : M unit := fun w => (Done tt, [ev], w).

Definition print (text : string) : M unit := emit (Stdout text).

Definition print_err (text : string) : M unit := emit (Stderr text).

(** A call to a collaborator: the call and its result are recorded, an
    exception it raises is raised in the caller. *)
Definition call {A : Type} (f : world -> result A * world)
  (record : result A -> event) : M A :=
  fun w =>
    match f w with
    | (Ok a, w1) => (Done a, [record (Ok a)], w1)
    | (Raise e, w1) => (Throw e, [record (Raise e)], w1)
    end.

Definition extract_info (opts : pydict) (arg : pyval) : M pyval :=
  call (ydl_extract_info opts arg) (ExtractInfo opts arg).

Definition download (opts : pydict) (urls : list pyval) : M Z :=
  call (ydl_download opts urls) (Download opts urls).

Definition makedirs (path : string) : M unit :=
  call (os_makedirs path) (Makedirs path).

Definition input (prompt : string) : M string :=
  call (py_input prompt) (Input prompt).

Definition isfile (path : string) : M bool :=
  fun w =>
    match os_path_isfile path w with
    | (b, w1) => (Done b, [Isfile path b], w1)
    end.

End Program.

Declare Scope stmt_scope.
Delimit Scope stmt_scope with stmt.
Notation "x <- m ;; k" := (bind m (fun x => k))
  (at level 61, m at next level, right associativity) : stmt_scope.
Notation "m ;; k" := (bind m (fun _ => k))
  (at level 61, right associativity) : stmt_scope.

(* ================================================================== *)
(** * The statements of mdload.py *)
(* ================================================================== *)

Section Script.

Context {B : PyBuiltins} {X : External}.

Open Scope stmt_scope.

(** [a or <m>]: the right operand is evaluated only for a falsy [a]. *)
Definition or_else (a : pyval) (m : M pyval) : M pyval :=
  if py_truthy a then ret a else m.

(** [{str(k): str(v) for k, v in parsed.items()}]; the keys of a parsed
    JSON object are str already. *)
Definition stringify_items (parsed : pydict) : pydict :=
  fold_left (fun acc kv => dict_set acc (fst kv) (PStr (py_str (snd kv))))
            parsed [].

Definition headers_not_object_msg : string :=
  "ERRO: --headers deve ser um JSON object (ex: '{" ++ dq ++ "Header" ++ dq
  ++ ":" ++ dq ++ "Value" ++ dq ++ "}').".

Definition parse_headers (headers_str : option string) : M (option pydict) :=
  if negb (opt_str_truthy headers_str) then ret None
  else
    match headers_str with
    | None => ret None
    | Some s =>
        match json_loads s with
        | Ok parsed =>
            match parsed with
            | PDict d => ret (Some (stringify_items d))
            | _ => print_err headers_not_object_msg ;; ret None
            end
        | Raise e =>
            if exn_class e =? "JSONDecodeError" then
              print_err ("ERRO ao parsear --headers JSON: " ++ exn_msg e) ;;
              ret None
            else throw e
        end
    end.

Definition video_msg : string :=
  " -> Tipo detectado: VÍDEO. Baixando melhor vídeo + áudio e mesclando em .mp4 (quando possível).".

Definition audio_msg : string :=
  " -> Tipo detectado: ÁUDIO. Baixando áudio e convertendo para .mp3 (192 kbps).".

Definition analyse_error_msg (e : exn) : string :=
  "Erro ao analisar formats do item: " ++ exn_msg e
  ++ ". Tentando fallback assumindo vídeo.".

Definition download_error_prefix : string :=
  "Erro durante o download/processing: ".

Definition download_error_msg (e : exn) : string :=
  download_error_prefix ++ exn_msg e.

(** Lines 146-158: the classification of one entry, with the detail
    query and the fallback. *)
Definition classify_entry (base_opts : pydict) (entry entry_url : pyval)
  : M bool :=
  try_except
    (formats <- lift (py_get entry "formats") ;;
     detailed_info <-
       (if negb (py_truthy formats) then
          arg <- or_else entry_url (lift (py_get entry "id")) ;;
          extract_info base_opts arg
        else ret entry) ;;
     lift (has_video detailed_info))
    (fun e => print_err (analyse_error_msg e) ;; ret true).

(** Lines 139-195: the body of [for entry in entries]. *)
Definition process_entry (outdir : string) (quiet : bool)
  (cookiefile username password : option string) (headers : option pydict)
  (base_opts : pydict) (entry : pyval) : M unit :=
  if negb (py_truthy entry) then ret tt
  else
    webpage_url <- lift (py_get entry "webpage_url") ;;
    entry_url <- or_else webpage_url (lift (py_get entry "url")) ;;
    title0 <- lift (py_get entry "title") ;;
    title <- or_else title0
               (id0 <- lift (py_get entry "id") ;;
                ret (py_or id0 (PStr "untitled"))) ;;
    print (nl ++ "Processando: " ++ py_str title) ;;
    is_video <- classify_entry base_opts entry entry_url ;;
    print (if is_video then video_msg else audio_msg) ;;
    try_except
      (download
         (entry_opts outdir quiet cookiefile username password headers is_video)
         [entry_url] ;;
       print " --> Concluído.")
      (fun e => print_err (download_error_msg e)).

Fixpoint for_each {A : Type} (l : list A) (body : A -> M unit) : M unit :=
  match l with
  | [] => ret tt
  | x :: rest => body x ;; for_each rest body
  end.

(** Lines 113-123: [None] stands for the [return] in the handler. *)
Definition initial_info_of (base_opts : pydict) (info_or_url : pyval)
  : M (option pyval) :=
  if is_dict info_or_url then ret (Some info_or_url)
  else
    try_except
      (info <- extract_info base_opts info_or_url ;; ret (Some info))
      (fun e =>
         print_err ("Erro ao extrair informações iniciais da URL: " ++ exn_msg e) ;;
         ret None).

Definition download_entries (info_or_url : pyval) (outdir : string)
  (verbose : bool) (cookiefile username password : option string)
  (headers : option pydict) : M unit :=
  let quiet := negb verbose in
  let base_opts :=
    build_base_opts outdir quiet cookiefile username password headers in
  got <- initial_info_of base_opts info_or_url ;;
  match got with
  | None => ret tt
  | Some initial_info =>
      if negb (py_truthy initial_info) then
        print_err "Nenhuma informação foi obtida da URL."
      else
        entries <- lift (normalize_entries initial_info) ;;
        for_each entries
          (process_entry outdir quiet cookiefile username password headers
                         base_opts)
  end.

(** The namespace [argparse] returns. *)
Record Args : Type := {
  arg_url : string;
  arg_outdir : string;
  arg_yes : bool;
  arg_verbose : bool;
  arg_cookies : option string;
  arg_username : option string;
  arg_password : option string;
  arg_headers : option string
}.

Definition legal_notice : string :=
  "ATENÇÃO: você declara que tem direito/legalidade para baixar o conteúdo desta URL."
  ++ nl ++
  "Não use para contornar DRM, paywalls ou baixar conteúdo protegido sem autorização.".

(** [main], after [parser.parse_args()]. *)
Definition main (args : Args) : M unit :=
  let url := arg_url args in
  let outdir := os_path_abspath (arg_outdir args) in
  makedirs outdir ;;
  headers <- parse_headers (arg_headers args) ;;
  (if opt_str_truthy (arg_headers args)
      && match headers with None => true | Some _ => false end
   then sys_exit 1
   else ret tt) ;;
  print legal_notice ;;
  (if negb (arg_yes args) then
     answer <- input "Deseja continuar? [y/N]: " ;;
     let resp := str_lower (str_strip answer) in
     if negb ((resp =? "y") || (resp =? "yes")) then
       print "Operação cancelada." ;; sys_exit 1
     else ret tt
   else ret tt) ;;
  (if opt_str_truthy (arg_cookies args) then
     match arg_cookies args with
     | Some cookies =>
         found <- isfile cookies ;;
         if negb found then
           print_err ("ERRO: arquivo de cookies não encontrado: " ++ cookies) ;;
           sys_exit 1
         else print ("Usando cookies a partir de: " ++ cookies)
     | None => ret tt
     end
   else ret tt) ;;
  (if opt_str_truthy (arg_username args) then
     print "Usando autenticação por usuário/senha (password não será exibida)."
   else ret tt) ;;
  download_entries (PStr url) outdir (arg_verbose args) (arg_cookies args)
                   (arg_username args) (arg_password args) headers.

(** The exit status of [python mdload.py ...]: 0 when [main] returns, the
    argument of [sys.exit], 1 after an uncaught exception. *)
Definition exit_status {A : Type} (o : outcome A) : Z :=
  match o with
  | Done _ => 0
  | SysExit code => code
  | Throw _ => 1
  end.

Definition run_script (args : Args) (w : world) : Z * list event * world :=
  match main args w with
  | (o, t, w') => (exit_status o, t, w')
  end.

End Script.

(* ================================================================== *)
(** * Observing a run *)
(* ================================================================== *)

Definition download_calls (t : list event)
  : list (pydict * list pyval * result Z) :=
  flat_map (fun ev => match ev with
                      | Download opts urls r => [(opts, urls, r)]
                      | _ => []
                      end) t.

Definition extract_calls (t : list event)
  : list (pydict * pyval * result pyval) :=
  flat_map (fun ev => match ev with
                      | ExtractInfo opts arg r => [(opts, arg, r)]
                      | _ => []
                      end) t.

Definition stderr_lines (t : list event) : list string :=
  flat_map (fun ev => match ev with
                      | Stderr text => [text]
                      | _ => []
                      end) t.

Definition stdout_lines (t : list event) : list string :=
  flat_map (fun ev => match ev with
                      | Stdout text => [text]
                      | _ => []
                      end) t.

(** The exceptions among a list of results, in order. *)
Definition raised {A : Type} (rs : list (result A)) : list exn :=
  flat_map (fun r => match r with
                     | Raise e => [e]
                     | Ok _ => []
                     end) rs.

(** The failures of downloads that a run reports on stderr. *)
Definition download_failure_reports (t : list event) : list string :=
  filter (String.prefix download_error_prefix) (stderr_lines t).

(** No metadata query and no download. *)
Definition no_resolution (t : list event) : Prop :=
  extract_calls t = [] /\ download_calls t = [].

Definition str_contains (needle hay : string) : bool :=
  match String.index 0 needle hay with
  | Some _ => true
  | None => false
  end.

(** The url handed to the download, and the argument of the detail query. *)
Definition entry_url_of (d : pydict) : pyval :=
  py_or (dict_get d "webpage_url") (dict_get d "url").

Definition detail_arg_of (d : pydict) : pyval :=
  py_or (entry_url_of d) (dict_get d "id").

Definition title_of (d : pydict) : pyval :=
  py_or (dict_get d "title") (py_or (dict_get d "id") (PStr "untitled")).

(** What follows a download: the completion line or the failure report. *)
Definition completion_event (r : result Z) : event :=
  match r with
  | Ok _ => Stdout " --> Concluído."
  | Raise e => Stderr (download_error_msg e)
  end.

(** ** Options up to the verbosity fields *)

Definition erase_verbosity (opts : pydict) : pydict :=
  dict_remove (dict_remove opts "quiet") "no_warnings".

Definition erase_event (ev : event) : event :=
  match ev with
  | ExtractInfo opts arg r => ExtractInfo (erase_verbosity opts) arg r
  | Download opts urls r => Download (erase_verbosity opts) urls r
  | other => other
  end.

(** The collaborator answers the same whatever [quiet] and [no_warnings]
    are. *)
Definition verbosity_blind (X : External) : Prop :=
  (forall o o' arg w,
      erase_verbosity o = erase_verbosity o' ->
      ydl_extract_info o arg w = ydl_extract_info o' arg w) /\
  (forall o o' urls w,
      erase_verbosity o = erase_verbosity o' ->
      ydl_download o urls w = ydl_download o' urls w).

(** ** The shape of yt-dlp metadata that [has_video] reads *)

Definition typed_format (f : pyval) : bool :=
  match f with
  | PDict fd =>
      match dict_get fd "vcodec" with
      | PNone | PStr _ => true
      | _ => false
      end
  | _ => false
  end.

Definition typed_info (info : pyval) : bool :=
  match info with
  | PDict d =>
      match dict_get d "formats" with
      | PNone => true
      | PList l => forallb typed_format l
      | _ => false
      end
      && match dict_get d "is_live" with
         | PNone | PBool _ => true
         | _ => false
         end
      && match dict_get d "width" with
         | PNone | PInt _ => true
         | _ => false
         end
      && match dict_get d "height" with
         | PNone | PInt _ => true
         | _ => false
         end
  | _ => false
  end.

Definition formats_of (info : pyval) : list pyval :=
  match info with
  | PDict d =>
      match dict_get d "formats" with
      | PList l => l
      | _ => []
      end
  | _ => []
  end.

Definition field_of (info : pyval) (k : string) : pyval :=
  match info with
  | PDict d => dict_get d k
  | _ => PNone
  end.

Definition is_flagged (v : pyval) : bool :=
  match v with
  | PBool b => b
  | _ => false
  end.

Definition is_nonzero (v : pyval) : bool :=
  match v with
  | PInt z => negb (z =? 0)%Z
  | _ => false
  end.

(** A descriptor whose video codec is a non-empty str other than "none". *)
Definition names_video_codec (f : pyval) : bool :=
  match f with
  | PDict fd =>
      match dict_get fd "vcodec" with
      | PStr s => negb (s =? "") && negb (s =? "none")
      | _ => false
      end
  | _ => false
  end.

Definition fallback_signal (info : pyval) : bool :=
  is_flagged (field_of info "is_live")
  || is_nonzero (field_of info "width")
  || is_nonzero (field_of info "height").

(* ================================================================== *)
(** * The specification's wording, where it is compared with the code *)
(* ================================================================== *)

Definition is_none (v : pyval) : bool :=
  match v with
  | PNone => true
  | _ => false
  end.

(** "whose video-codec field is present and not equal to none": the key
    is there with a value that is not None, and the value is not "none". *)
Definition spec_codec_signals_video (f : pyval) : bool :=
  match f with
  | PDict fd =>
      match dict_lookup fd "vcodec" with
      | Some v => negb (is_none v) && py_ne_str v "none"
      | None => false
      end
  | _ => false
  end.

Definition spec_classify (info : pyval) : bool :=
  existsb spec_codec_signals_video (formats_of info) || fallback_signal info.

(** "the entry's webpage URL when present and its bare identifier as the
    fallback". *)
Definition spec_detail_arg (d : pydict) : pyval :=
  if negb (is_none (dict_get d "webpage_url")) then dict_get d "webpage_url"
  else dict_get d "id".

(** "that field's non-null entries in source order", else the object
    alone. *)
Definition spec_resolved (info : pyval) : list pyval :=
  match info with
  | PDict d =>
      match dict_get d "entries" with
      | PList (e :: rest) => filter (fun x => negb (is_none x)) (e :: rest)
      | _ => [info]
      end
  | _ => [info]
  end.

(** "copied through verbatim exactly when present, and when absent the
    corresponding key is omitted". *)
Definition spec_auth_settings (opts : pydict)
  (cookiefile username password : option string) (headers : option pydict)
  : Prop :=
  dict_lookup opts "cookiefile" = option_map PStr cookiefile /\
  dict_lookup opts "username" = option_map PStr username /\
  dict_lookup opts "password" = option_map PStr password /\
  dict_lookup opts "http_headers" = option_map PDict headers.

(** "the entry's webpage URL (or, when absent, its url field)". *)
Definition spec_entry_url (d : pydict) : pyval :=
  if negb (is_none (dict_get d "webpage_url")) then dict_get d "webpage_url"
  else dict_get d "url".

(* ================================================================== *)
(** * Stand-ins for the library and the collaborators, for examples *)
(* ================================================================== *)

Definition headers_example : string :=
  "{" ++ dq ++ "A" ++ dq ++ ":" ++ dq ++ "1" ++ dq ++ ","
      ++ dq ++ "B" ++ dq ++ ":2}".

Definition json_decode_error : exn :=
  Exn "JSONDecodeError" "Expecting value: line 1 column 1 (char 0)".

(** [json.loads] on the three texts the examples use; [repr] of a str
    without quotes, backslashes or control characters; paths are
    absolute already, answers typed in lower case without blanks. *)
Definition sample_builtins : PyBuiltins := {|
  repr_str := fun s => "'" ++ s ++ "'";
  json_loads := fun s =>
    if s =? headers_example then
      Ok (PDict [("A", PStr "1"); ("B", PInt 2)])
    else if s =? "[1,2]" then Ok (PList [PInt 1; PInt 2])
    else if s =? "{}" then Ok (PDict [])
    else Raise json_decode_error;
  os_path_abspath := fun p => if starts_with_sep p then p else "/home/u/" ++ p;
  str_strip := fun s => s;
  str_lower := fun s => s
|}.

(** A collaborator without state: the metadata query answers by its
    argument, the download by its urls; the directory can be made, the
    user answers [answer], the files of [files] exist. *)
Definition stub_external (answer_query : pyval -> result pyval)
  (answer_download : list pyval -> result Z) (answer : string)
  (files : list string) : External := {|
  world := unit;
  ydl_extract_info := fun _ arg w => (answer_query arg, w);
  ydl_download := fun _ urls w => (answer_download urls, w);
  os_makedirs := fun _ w => (Ok tt, w);
  os_path_isfile := fun path w => (existsb (String.eqb path) files, w);
  py_input := fun _ w => (Ok answer, w)
|}.

Definition audio_formats : pyval :=
  PList [PDict [("vcodec", PStr "none"); ("acodec", PStr "mp4a")]].

Definition video_formats : pyval :=
  PList [PDict [("vcodec", PStr "none")]; PDict [("vcodec", PStr "avc1")]].

Definition track (n title : string) (formats : pyval) : pyval :=
  PDict [ ("id", PStr n); ("title", PStr title);
          ("webpage_url", PStr ("https://example.org/" ++ n));
          ("formats", formats) ].

Definition playlist3 : pyval :=
  PDict [ ("id", PStr "pl"); ("title", PStr "Mix");
          ("entries", PList [ track "a" "Intro" audio_formats;
                              track "b" "Clip" video_formats;
                              track "c" "Outro" audio_formats ]) ].

Definition download_error : exn := Exn "DownloadError" "ERROR: HTTP Error 403".

(** The download of track b fails, the others succeed. *)
Definition fails_on_b (urls : list pyval) : result Z :=
  match urls with
  | [PStr u] => if u =? "https://example.org/b" then Raise download_error
                else Ok 0%Z
  | _ => Ok 0%Z
  end.

Definition serves_playlist3 (arg : pyval) : result pyval := Ok playlist3.

Definition unavailable : exn := Exn "DownloadError" "ERROR: Video unavailable".

Definition never_answers (arg : pyval) : result pyval := Raise unavailable.

Definition answers_none (arg : pyval) : result pyval := Ok PNone.

Definition sample_args (headers : option string) (verbose : bool) : Args := {|
  arg_url := "https://example.org/pl";
  arg_outdir := "downloads";
  arg_yes := true;
  arg_verbose := verbose;
  arg_cookies := None;
  arg_username := None;
  arg_password := None;
  arg_headers := headers
|}.

(** The inputs of the counterexamples. *)

Definition empty_codec_info : pyval :=
  PDict [("id", PStr "x"); ("formats", PList [PDict [("vcodec", PStr "")]])].

(** ** What every built configuration carries *)

Definition copied_if_truthy (opts : pydict) (k : string) (o : option string)
  : Prop :=
  dict_lookup opts k = if opt_str_truthy o then option_map PStr o else None.

Definition base_settings (opts : pydict) (outdir : string) (verbose : bool)
  (cookiefile username password : option string) (headers : option pydict)
  : Prop :=
  dict_lookup opts "outtmpl" = Some (PStr (os_path_join outdir outtmpl_pattern)) /\
  dict_lookup opts "quiet" = Some (PBool (negb verbose)) /\
  dict_lookup opts "no_warnings" = Some (PBool (negb verbose)) /\
  dict_lookup opts "ignoreerrors" = Some (PBool true) /\
  copied_if_truthy opts "cookiefile" cookiefile /\
  copied_if_truthy opts "username" username /\
  copied_if_truthy opts "password" password /\
  dict_lookup opts "http_headers" =
    (if opt_dict_truthy headers then option_map PDict headers else None).

(** ** Reading the result of a run and the recorded calls *)

Definition outcome_of {A W : Type} (r : outcome A * list event * W)
  : outcome A := fst (fst r).

Definition trace_of {A W : Type} (r : outcome A * list event * W)
  : list event := snd (fst r).

Definition world_of {A W : Type} (r : outcome A * list event * W) : W :=
  snd r.

Definition call_arg {A R : Type} (c : pydict * A * R) : A := snd (fst c).

Definition call_result {A R : Type} (c : pydict * A * R) : R := snd c.

(** The options of a recorded call. *)
Definition call_opts {A R : Type} (c : pydict * A * R) : pydict := fst (fst c).

Definition url_of_entry (e : pyval) : pyval :=
  match e with
  | PDict d => entry_url_of d
  | _ => PNone
  end.

(** The top-level query raised, or returned nothing (None, or another
    falsy value). *)
Definition query_failed (r : result pyval) : bool :=
  match r with
  | Raise _ => true
  | Ok info => negb (py_truthy info)
  end.

Definition resolution_error_msg (r : result pyval) : string :=
  match r with
  | Raise e => "Erro ao extrair informações iniciais da URL: " ++ exn_msg e
  | Ok _ => "Nenhuma informação foi obtida da URL."
  end.

(** [json.loads] gave something else than a dict, or raised. *)
Definition not_an_object (r : result pyval) : bool :=
  match r with
  | Ok (PDict _) => false
  | _ => true
  end.

(** ** The runs of the examples *)

Definition playlist3_external : External :=
  stub_external serves_playlist3 fails_on_b "y" [].

Definition playlist3_run : outcome unit * list event * unit :=
  @download_entries sample_builtins playlist3_external
    (PStr "https://example.org/pl") "/out" false None None None None tt.

(** A flat playlist item: url and id, neither webpage_url nor formats. *)
Definition flat_item : pydict :=
  [ ("id", PStr "x1"); ("url", PStr "https://example.org/v/x1");
    ("title", PStr "Talk") ].

Definition flat_item_external : External :=
  stub_external (fun _ => Ok (track "x1" "Talk" audio_formats))
                (fun _ => Ok 0%Z) "y" [].

(** An item whose webpage_url is the empty str. *)
Definition blank_page_item : pydict :=
  [ ("id", PStr "x2"); ("webpage_url", PStr "");
    ("url", PStr "https://example.org/v/x2"); ("formats", audio_formats) ].

Definition empty_entry_playlist : pyval :=
  PDict [("id", PStr "pl"); ("entries", PList [PDict []])].

(** Two runs that end alike, in the same world, after the same events
    up to the verbosity fields of the options they carry. *)
Definition same_run {X : External} {A : Type}
  (r r' : outcome A * list event * world) : Prop :=
  outcome_of r = outcome_of r' /\
  map erase_event (trace_of r) = map erase_event (trace_of r') /\
  world_of r = world_of r'.

(* ================================================================== *)
(** * Further notions about the code *)
(* ================================================================== *)

(** The test of [has_video] on one descriptor: a truthy vcodec other than
    "none". *)
Definition codec_counts (f : pyval) : bool :=
  match f with
  | PDict fd =>
      py_truthy (dict_get fd "vcodec") && py_ne_str (dict_get fd "vcodec") "none"
  | _ => false
  end.

(** The keys of a dictionary, in order. *)
Definition dict_keys (d : pydict) : list string := map fst d.

Definition key_if (present : bool) (k : string) : list string :=
  if present then [k] else [].

(** A header map as [build_base_opts] expects it: every value is a str. *)
Definition is_str (v : pyval) : bool :=
  match v with
  | PStr _ => true
  | _ => false
  end.

(** A run whose events all satisfy [P] and which, if it ends with
    [SystemExit], does so with a code satisfying [Q]. *)
Definition confined {A W : Type} (P : event -> Prop) (Q : Z -> Prop)
  (r : outcome A * list event * W) : Prop :=
  Forall P (trace_of r) /\
  forall code, outcome_of r = SysExit code -> Q code.

Definition no_code (code : Z) : Prop := False.

(** The events of a batch: text, metadata queries with the base options,
    downloads of one url with the per-entry options of some kind. *)
Definition batch_event (base : pydict) (entry_cfg : bool -> pydict)
  (ev : event) : Prop :=
  match ev with
  | Stdout _ | Stderr _ => True
  | ExtractInfo opts _ _ => opts = base
  | Download opts urls _ =>
      (exists is_video, opts = entry_cfg is_video) /\ length urls = 1
  | _ => False
  end.

(** An entry for which [download_entries] makes the detail query. *)
Definition lacks_formats (e : pyval) : bool :=
  match e with
  | PDict d => negb (py_truthy (dict_get d "formats"))
  | _ => false
  end.

Definition detail_arg_of_entry (e : pyval) : pyval :=
  match e with
  | PDict d => detail_arg_of d
  | _ => PNone
  end.

(** The kind [download_entries] settles on, from what [has_video]
    returned or raised. *)
Definition kind_of (r : result bool) : bool :=
  match r with
  | Ok is_video => is_video
  | Raise _ => true
  end.

Definition analysis_report (r : result bool) : list string :=
  match r with
  | Ok _ => []
  | Raise e => [analyse_error_msg e]
  end.

(** The kind settled on after the detail query answered [answer], and what
    is reported on stderr about it. *)
Definition kind_after (answer : result pyval) : bool :=
  match answer with
  | Ok info => kind_of (has_video info)
  | Raise _ => true
  end.

Definition report_after (answer : result pyval) : list string :=
  match answer with
  | Ok info => analysis_report (has_video info)
  | Raise e => [analyse_error_msg e]
  end.

(** The line that opens the processing of an entry. *)
Definition announcement {B : PyBuiltins} (d : pydict) : event :=
  Stdout (nl ++ "Processando: " ++ py_str (title_of d)).

Definition kind_line (is_video : bool) : event :=
  Stdout (if is_video then video_msg else audio_msg).

(** An entry that carries its own descriptors: a dict whose formats is a
    non-empty list of dicts. *)
Definition carries_formats (e : pyval) : bool :=
  match e with
  | PDict d =>
      match dict_get d "formats" with
      | PList (f :: rest) => forallb is_dict (f :: rest)
      | _ => false
      end
  | _ => false
  end.

Definition completion_line : string := " --> Concluído.".

(** How many downloads a run reports as completed. *)
Definition completions (t : list event) : nat :=
  length (filter (String.eqb completion_line) (stdout_lines t)).

(** Every download succeeds. *)
Definition downloads_succeed (X : External) : Prop :=
  forall opts urls w, exists code, fst (ydl_download opts urls w) = Ok code.

(** A run that ends with exit status 1 without any metadata query or
    download. *)
Definition aborted {A W : Type} (r : outcome A * list event * W) : Prop :=
  exit_status (outcome_of r) = 1%Z /\ no_resolution (trace_of r).

(** What [main] passes on as headers when it goes on after
    [parse_headers]; [None] when it stops there. *)
Definition accepted_headers {B : PyBuiltins} (headers_str : option string)
  : option (option pydict) :=
  if opt_str_truthy headers_str then
    match headers_str with
    | Some s =>
        match json_loads s with
        | Ok (PDict d) => Some (Some (stringify_items d))
        | _ => None
        end
    | None => Some None
    end
  else Some None.

Definition consent_prompt : string := "Deseja continuar? [y/N]: ".

(** The answer, stripped and in lower case, is neither y nor yes. *)
Definition declines {B : PyBuiltins} (answer : string) : bool :=
  negb ((str_lower (str_strip answer) =? "y")
        || (str_lower (str_strip answer) =? "yes")).

(** The events [main] may produce with these arguments: it prompts only
    without --yes and looks for a file only with --cookies. *)
Definition main_event (args : Args) (ev : event) : Prop :=
  match ev with
  | Input _ _ => arg_yes args = false
  | Isfile path _ => arg_cookies args = Some path /\ path <> ""
  | Makedirs _ _ | Stdout _ | Stderr _ => True
  | ExtractInfo _ _ _ | Download _ _ _ => True
  end.

Definition auth_events (username : option string) : list event :=
  if opt_str_truthy username then
    [Stdout "Usando autenticação por usuário/senha (password não será exibida)."]
  else [].

Definition exit_code_one (code : Z) : Prop := code = 1%Z.

(** The user never answers y or yes. *)
Definition user_declines {B : PyBuiltins} (X : External) : Prop :=
  forall w answer w',
    py_input consent_prompt w = (Ok answer, w') -> declines answer = true.

(** The file is never found. *)
Definition file_missing (X : External) (path : string) : Prop :=
  forall w, fst (os_path_isfile path w) = false.

Section MainSteps.

Context {B : PyBuiltins} {X : External}.

Open Scope stmt_scope.

(** Lines 231-235 of [main]: the consent. *)
Definition consent_step (yes : bool) : M unit :=
  if negb yes then
    answer <- input consent_prompt ;;
    if declines answer then print "Operação cancelada." ;; sys_exit 1
    else ret tt
  else ret tt.

(** Lines 238-243 of [main]: the cookie file. *)
Definition cookies_step (cookies : option string) : M unit :=
  if opt_str_truthy cookies then
    match cookies with
    | Some path =>
        found <- isfile path ;;
        if negb found then
          print_err ("ERRO: arquivo de cookies não encontrado: " ++ path) ;;
          sys_exit 1
        else print ("Usando cookies a partir de: " ++ path)
    | None => ret tt
    end
  else ret tt.

(** Lines 244-248 of [main]: the note on credentials and the batch. *)
Definition batch_step (args : Args) (headers : option pydict) : M unit :=
  (if opt_str_truthy (arg_username args) then
     print "Usando autenticação por usuário/senha (password não será exibida)."
   else ret tt) ;;
  download_entries (PStr (arg_url args)) (os_path_abspath (arg_outdir args))
                   (arg_verbose args) (arg_cookies args) (arg_username args)
                   (arg_password args) headers.

End MainSteps.

(** What the consent of [main] leaves behind when it lets the run go on:
    nothing with --yes, else the prompt with its answer. *)
Definition after_consent {X : External} (yes : bool) (w : world)
  : list event * world :=
  if yes then ([], w)
  else ([Input consent_prompt (fst (py_input consent_prompt w))],
        snd (py_input consent_prompt w)).

(** What the cookie check of [main] leaves behind when it lets the run go
    on: nothing without a (non-empty) --cookies, else the look-up of the
    file and the line that names it. *)
Definition after_cookies {X : External} (cookies : option string) (w : world)
  : list event * world :=
  if opt_str_truthy cookies then
    match cookies with
    | Some path =>
        ([Isfile path (fst (os_path_isfile path w));
          Stdout ("Usando cookies a partir de: " ++ path)],
         snd (os_path_isfile path w))
    | None => ([], w)
    end
  else ([], w).

(** ** More stand-ins for the examples *)

(** Every metadata query is answered with playlist3 and every download
    succeeds. *)
Definition playlist3_ok_external : External :=
  stub_external serves_playlist3 (fun _ => Ok 0%Z) "y" [].

(** A playlist with one entry that carries its formats and one flat item. *)
Definition mixed_playlist : pydict :=
  [ ("id", PStr "mx");
    ("entries", PList [track "a" "Intro" audio_formats; PDict flat_item]) ].

Definition unresolved_playlist : pydict :=
  [ ("id", PStr "gone"); ("entries", PList [PNone; PNone]) ].

Definition broken_playlist : pydict :=
  [ ("id", PStr "bad");
    ("entries", PList [ track "a" "Intro" audio_formats; PStr "oops";
                        track "c" "Outro" audio_formats ]) ].

(** The user answers n. *)
Definition refusing_external : External :=
  stub_external serves_playlist3 (fun _ => Ok 0%Z) "n" [].

Definition prompted_args : Args := {|
  arg_url := "https://example.org/pl";
  arg_outdir := "downloads";
  arg_yes := false;
  arg_verbose := false;
  arg_cookies := None;
  arg_username := None;
  arg_password := None;
  arg_headers := None
|}.

Definition cookie_args : Args := {|
  arg_url := "https://example.org/pl";
  arg_outdir := "downloads";
  arg_yes := true;
  arg_verbose := false;
  arg_cookies := Some "cookies.txt";
  arg_username := Some "ana";
  arg_password := Some "secret";
  arg_headers := None
|}.

Definition permission_denied : exn :=
  Exn "PermissionError" "[Errno 13] Permission denied: '/home/u/downloads'".

(** The output directory cannot be made. *)
Definition readonly_external : External := {|
  world := unit;
  ydl_extract_info := fun _ _ w => (Ok playlist3, w);
  ydl_download := fun _ _ w => (Ok 0%Z, w);
  os_makedirs := fun _ w => (Raise permission_denied, w);
  os_path_isfile := fun _ w => (false, w);
  py_input := fun _ w => (Ok "y", w)
|}.

(** Without --yes, with a cookie file and credentials. *)
Definition interactive_args : Args := {|
  arg_url := "https://example.org/pl";
  arg_outdir := "downloads";
  arg_yes := false;
  arg_verbose := false;
  arg_cookies := Some "cookies.txt";
  arg_username := Some "ana";
  arg_password := Some "secret";
  arg_headers := None
|}.

(** The user answers y and cookies.txt exists; no metadata query is
    answered. *)
Definition offline_external : External :=
  stub_external never_answers fails_on_b "y" ["cookies.txt"].

(** The user answers y and cookies.txt exists; every metadata query is
    answered with playlist3 and every download fails. *)
Definition failing_external : External :=
  stub_external serves_playlist3 (fun _ => Raise download_error) "y"
                ["cookies.txt"].

(** A metadata query is answered only for the playlist, with
    mixed_playlist: the detail query of its flat item raises. *)
Definition serves_mixed_playlist (arg : pyval) : result pyval :=
  match arg with
  | PStr "https://example.org/pl" => Ok (PDict mixed_playlist)
  | _ => Raise unavailable
  end.

Definition mixed_playlist_external : External :=
  stub_external serves_mixed_playlist (fun _ => Ok 0%Z) "y" [].

(* ================================================================== *)
(** * Properties *)
(* ================================================================== *)

(** ** Dictionaries *)

Lemma dict_lookup_set_same (d : pydict) (k : string) (v : pyval) :
  dict_lookup (dict_set d k v) k = Some v.
Proof.
  induction d as [|[k' v'] rest IH]; simpl.
  - now rewrite String.eqb_refl.
  - destruct (k' =? k) eqn:E; simpl; rewrite E; auto.
Qed.

Lemma dict_lookup_set_other (d : pydict) (k k' : string) (v : pyval) :
  k <> k' -> dict_lookup (dict_set d k v) k' = dict_lookup d k'.
Proof.
  intros Hne. induction d as [|[k0 v0] rest IH]; simpl.
  - apply String.eqb_neq in Hne. now rewrite Hne.
  - destruct (k0 =? k) eqn:E; simpl.
    + apply String.eqb_eq in E. subst k0.
      apply String.eqb_neq in Hne. now rewrite Hne.
    + destruct (k0 =? k'); auto.
Qed.

Lemma dict_lookup_set (d : pydict) (k k' : string) (v : pyval) :
  dict_lookup (dict_set d k v) k' =
  if k =? k' then Some v else dict_lookup d k'.
Proof.
  destruct (k =? k') eqn:E.
  - apply String.eqb_eq in E. subst. apply dict_lookup_set_same.
  - apply String.eqb_neq in E. now apply dict_lookup_set_other.
Qed.

Lemma lookup_set_opt_str (opts : pydict) (k k' : string) (o : option string) :
  dict_lookup (set_opt_str opts k o) k' =
  if opt_str_truthy o && (k =? k') then option_map PStr o
  else dict_lookup opts k'.
Proof.
  unfold set_opt_str. destruct o as [s|]; simpl; auto.
  destruct (s =? ""); simpl; auto.
  apply dict_lookup_set.
Qed.

Lemma lookup_set_opt_headers (opts : pydict) (k' : string)
  (h : option pydict) :
  dict_lookup (set_opt_headers opts h) k' =
  if opt_dict_truthy h && ("http_headers" =? k') then option_map PDict h
  else dict_lookup opts k'.
Proof.
  unfold set_opt_headers. destruct h as [[|kv rest]|]; simpl; auto.
  destruct kv as [k0 v0]. apply dict_lookup_set.
Qed.

(** The base options, key by key. *)
Lemma lookup_build_base_opts (outdir : string) (quiet : bool)
  (c u p : option string) (h : option pydict) (k : string) :
  dict_lookup (build_base_opts outdir quiet c u p h) k =
  if opt_dict_truthy h && ("http_headers" =? k) then option_map PDict h
  else if opt_str_truthy p && ("password" =? k) then option_map PStr p
  else if opt_str_truthy u && ("username" =? k) then option_map PStr u
  else if opt_str_truthy c && ("cookiefile" =? k) then option_map PStr c
  else if "quiet" =? k then Some (PBool quiet)
  else if "no_warnings" =? k then Some (PBool quiet)
  else if "outtmpl" =? k then Some (PStr (os_path_join outdir outtmpl_pattern))
  else if "ignoreerrors" =? k then Some (PBool true)
  else None.
Proof.
  unfold build_base_opts.
  rewrite lookup_set_opt_headers, !lookup_set_opt_str. reflexivity.
Qed.

Lemma lookup_video_update (d : pydict) (k : string) :
  dict_lookup (dict_update d video_update) k =
  if "postprocessors" =? k then dict_lookup video_update "postprocessors"
  else if "merge_output_format" =? k then Some (PStr "mp4")
  else if "format" =? k then Some (PStr "bestvideo+bestaudio/best")
  else dict_lookup d k.
Proof.
  unfold dict_update, video_update. simpl. now rewrite !dict_lookup_set.
Qed.

Lemma lookup_audio_update (d : pydict) (k : string) :
  dict_lookup (dict_update d audio_update) k =
  if "postprocessors" =? k then dict_lookup audio_update "postprocessors"
  else if "format" =? k then Some (PStr "bestaudio/best")
  else dict_lookup d k.
Proof.
  unfold dict_update, audio_update. simpl. now rewrite !dict_lookup_set.
Qed.

(** Reading a key of the per-entry options that the update does not set. *)
Lemma lookup_entry_opts_base (outdir : string) (quiet : bool)
  (c u p : option string) (h : option pydict) (is_video : bool) (k : string) :
  ("postprocessors" =? k) = false ->
  ("merge_output_format" =? k) = false ->
  ("format" =? k) = false ->
  dict_lookup (entry_opts outdir quiet c u p h is_video) k =
  dict_lookup (build_base_opts outdir quiet c u p h) k.
Proof.
  intros H1 H2 H3. unfold entry_opts. destruct is_video.
  - now rewrite lookup_video_update, H1, H2, H3.
  - now rewrite lookup_audio_update, H1, H3.
Qed.

(** ** The configuration builder *)

Lemma base_settings_of_base (outdir : string) (verbose : bool)
  (c u p : option string) (h : option pydict) :
  base_settings (build_base_opts outdir (negb verbose) c u p h)
                outdir verbose c u p h.
Proof.
  unfold base_settings, copied_if_truthy.
  rewrite !lookup_build_base_opts. simpl.
  rewrite ?andb_false_r, ?andb_true_r. simpl.
  repeat split; reflexivity.
Qed.

Lemma base_settings_of_entry (outdir : string) (verbose : bool)
  (c u p : option string) (h : option pydict) (is_video : bool) :
  base_settings (entry_opts outdir (negb verbose) c u p h is_video)
                outdir verbose c u p h.
Proof.
  pose proof (base_settings_of_base outdir verbose c u p h) as Hb.
  unfold base_settings, copied_if_truthy in *.
  rewrite !lookup_entry_opts_base by reflexivity. exact Hb.
Qed.

(** C7, amended. Every built configuration, the base one of the metadata
    queries and the one of each download, has the output template
    [os.path.join(outdir, "%(title)s - %(id)s.%(ext)s")] (outdir, a slash
    and the pattern unless outdir is empty or ends in a slash), [quiet]
    and [no_warnings] equal to [not verbose], and [ignoreerrors] True.
    The cookie file, username and password are copied exactly when they
    are non-empty strings, the header map exactly when it is a non-empty
    dict; when None or empty, the key is not in the configuration. *)
Theorem built_options_settings (outdir : string) (verbose : bool)
  (c u p : option string) (h : option pydict) :
  base_settings (build_base_opts outdir (negb verbose) c u p h)
                outdir verbose c u p h /\
  (forall is_video : bool,
      base_settings (entry_opts outdir (negb verbose) c u p h is_video)
                    outdir verbose c u p h) /\
  os_path_join outdir outtmpl_pattern =
    (if (outdir =? "") || ends_with_sep outdir
     then outdir ++ outtmpl_pattern
     else outdir ++ "/" ++ outtmpl_pattern).
Proof.
  split; [apply base_settings_of_base|].
  split; [intro; apply base_settings_of_entry|].
  reflexivity.
Qed.

(** C7 as worded fails: a username that is present but empty, and a header
    map that is present but empty ([--headers '{}']), are not copied. *)
Lemma empty_settings_counterexample :
  ~ spec_auth_settings
      (build_base_opts "downloads" true None (Some "") None (Some []))
      None (Some "") None (Some []).
Proof.
  intros (_ & Hu & _). vm_compute in Hu. discriminate Hu.
Qed.

(** C3. The configuration of an entry classified VIDEO has the format
    expression [bestvideo+bestaudio/best], merges into mp4 and converts to
    mp4; the one of an entry classified AUDIO has the format expression
    [bestaudio/best] and extracts mp3 at quality 192, and no merge
    directive. *)
Theorem entry_opts_by_kind (outdir : string) (quiet : bool)
  (c u p : option string) (h : option pydict) :
  (let opts := entry_opts outdir quiet c u p h true in
   dict_lookup opts "format" = Some (PStr "bestvideo+bestaudio/best") /\
   dict_lookup opts "merge_output_format" = Some (PStr "mp4") /\
   dict_lookup opts "postprocessors" =
     Some (PList [PDict [("key", PStr "FFmpegVideoConvertor");
                         ("preferedformat", PStr "mp4")]])) /\
  (let opts := entry_opts outdir quiet c u p h false in
   dict_lookup opts "format" = Some (PStr "bestaudio/best") /\
   dict_lookup opts "merge_output_format" = None /\
   dict_lookup opts "postprocessors" =
     Some (PList [PDict [("key", PStr "FFmpegExtractAudio");
                         ("preferredcodec", PStr "mp3");
                         ("preferredquality", PStr "192")]])).
Proof.
  unfold entry_opts. cbv zeta.
  rewrite !lookup_video_update, !lookup_audio_update.
  rewrite !lookup_build_base_opts. simpl.
  rewrite ?andb_false_r. repeat split; reflexivity.
Qed.

(** ** The classifier *)

Lemma formats_loop_typed (l : list pyval) :
  forallb typed_format l = true ->
  formats_loop l = Ok (existsb names_video_codec l).
Proof.
  induction l as [|f rest IH]; simpl; intros H; [reflexivity|].
  apply andb_prop in H as [Hf Hrest].
  destruct f as [| | | | |fd]; simpl in Hf; try discriminate.
  simpl. destruct (dict_get fd "vcodec") as [| | |s| |];
    simpl in *; try discriminate; auto.
  destruct (negb (s =? "") && negb (s =? "none")); simpl; auto.
Qed.

Lemma fallback_typed (a b c : pyval) :
  match a with PNone | PBool _ => true | _ => false end = true ->
  match b with PNone | PInt _ => true | _ => false end = true ->
  match c with PNone | PInt _ => true | _ => false end = true ->
  py_truthy (py_or (py_or a b) c) = is_flagged a || is_nonzero b || is_nonzero c.
Proof.
  intros Ha Hb Hc. unfold py_or.
  destruct a as [|[]| | | |]; try discriminate; simpl; auto;
    destruct b as [| |z| | |]; try discriminate; simpl; auto;
    try (destruct (z =? 0)%Z eqn:E; simpl; rewrite ?E; simpl; auto);
    destruct c as [| |z'| | |]; try discriminate; simpl; auto.
Qed.

(** C1, amended. On metadata of the shape yt-dlp gives (a dict; formats
    None or a list of dicts whose vcodec is None or a str; is_live None or
    a bool; width and height None or an int) [has_video] returns, and it
    returns True (VIDEO) exactly when some descriptor has a vcodec that is
    a non-empty str other than "none", or else is_live is True or width or
    height is a non-zero number; otherwise False (AUDIO). No other field
    is read. *)
Theorem has_video_classification (info : pyval) :
  typed_info info = true ->
  has_video info =
  Ok (existsb names_video_codec (formats_of info) || fallback_signal info).
Proof.
  destruct info as [| | | | |d]; simpl; try discriminate.
  intros H.
  apply andb_prop in H as [H Hh]. apply andb_prop in H as [H Hw].
  apply andb_prop in H as [Hf Hl].
  unfold has_video, fallback_signal. simpl.
  assert (Hloop : formats_loop
                    match dict_get d "formats" with PList l => l | _ => [] end
                  = Ok (existsb names_video_codec
                          match dict_get d "formats" with
                          | PList l => l | _ => [] end)).
  { destruct (dict_get d "formats") as [| | | |l|]; try discriminate;
      try reflexivity.
    now apply formats_loop_typed. }
  assert (Hit : py_iter (py_or (dict_get d "formats") (PList []))
                = Ok match dict_get d "formats" with PList l => l | _ => [] end).
  { destruct (dict_get d "formats") as [| | | |[|x l]|]; try discriminate;
      reflexivity. }
  rewrite Hit. simpl. rewrite Hloop. simpl.
  destruct (existsb names_video_codec _); simpl; [reflexivity|].
  rewrite (fallback_typed _ _ _ Hl Hw Hh).
  now destruct (is_flagged _ || is_nonzero _ || is_nonzero _).
Qed.

Lemma has_video_classification_witness :
  typed_info (track "b" "Clip" video_formats) = true /\
  has_video (track "b" "Clip" video_formats) = Ok true.
Proof.
  split; [reflexivity|].
  exact (has_video_classification (track "b" "Clip" video_formats) eq_refl).
Defined.

(** C1 as worded fails: the descriptor's vcodec is present (the empty
    str) and is not "none", yet the entry is classified AUDIO. *)
Lemma empty_codec_counterexample :
  typed_info empty_codec_info = true /\
  spec_classify empty_codec_info = true /\
  has_video empty_codec_info = Ok false.
Proof. repeat split. Qed.

(** ** Resolution of the entries *)

Lemma append_truthy_filter (acc l : list pyval) :
  append_truthy acc l = (acc ++ filter py_truthy l)%list.
Proof.
  revert acc. induction l as [|e rest IH]; intros acc; simpl.
  - now rewrite app_nil_r.
  - destruct (py_truthy e); rewrite IH; [|reflexivity].
    now rewrite <- app_assoc.
Qed.

Lemma filter_all_true {A : Type} (f : A -> bool) (l : list A) :
  Forall (fun x => f x = true) l -> filter f l = l.
Proof.
  induction 1 as [|x rest Hx _ IH]; simpl; [reflexivity|].
  now rewrite Hx, IH.
Qed.

Lemma filter_truthy_all (f : pyval -> bool) (l : list pyval) :
  Forall (fun x => f x = true) (filter f l).
Proof.
  induction l as [|x rest IH]; simpl; [constructor|].
  destruct (f x) eqn:E; [constructor|]; assumption.
Qed.

Lemma normalize_entries_list (d : pydict) (l : list pyval) :
  dict_get d "entries" = PList l -> l <> [] ->
  normalize_entries (PDict d) = Ok (filter py_truthy l).
Proof.
  intros H Hne. unfold normalize_entries. rewrite H.
  destruct l as [|e rest]; [congruence|].
  unfold py_or. cbn [py_truthy py_iter rbind].
  now rewrite append_truthy_filter.
Qed.

Lemma normalize_entries_single (info : pyval) :
  py_truthy (field_of info "entries") = false ->
  normalize_entries info = Ok [info].
Proof.
  destruct info as [| | | | |d]; simpl; try reflexivity.
  now intros ->.
Qed.

Lemma normalize_entries_truthy (info : pyval) (entries : list pyval) :
  py_truthy info = true ->
  normalize_entries info = Ok entries ->
  Forall (fun e => py_truthy e = true) entries.
Proof.
  intros Ht. destruct info as [| | | | |d]; simpl;
    try (intros [= <-]; now repeat constructor).
  destruct (py_truthy (dict_get d "entries")) eqn:E.
  - destruct (py_iter (py_or (dict_get d "entries") (PList []))) as [l|e];
      simpl; [|discriminate].
    intros [= <-]. rewrite append_truthy_filter. apply filter_truthy_all.
  - intros [= <-]. now repeat constructor.
Qed.

(** C6, amended. When the metadata object is a dict whose entries field
    is a non-empty list, the resolved sequence is that list without its
    falsy elements (None, and also an empty dict or any other empty or
    zero value), in source order, duplicates kept. When the entries field
    is missing, None or empty, or the object is not a dict, the resolved
    sequence is the object alone. *)
Theorem normalize_entries_resolved (info : pyval) :
  (forall d l, info = PDict d -> dict_get d "entries" = PList l -> l <> [] ->
               normalize_entries info = Ok (filter py_truthy l)) /\
  (py_truthy (field_of info "entries") = false ->
   normalize_entries info = Ok [info]).
Proof.
  split.
  - intros d l -> Hl Hne. now apply normalize_entries_list.
  - apply normalize_entries_single.
Qed.

Lemma normalize_entries_resolved_witness :
  normalize_entries
    (PDict [("entries",
             PList [PStr "a"; PNone; PStr "b"; PStr "a"; PDict []])])
  = Ok [PStr "a"; PStr "b"; PStr "a"] /\
  normalize_entries (track "a" "Intro" audio_formats)
  = Ok [track "a" "Intro" audio_formats].
Proof.
  split.
  - refine (proj1 (normalize_entries_resolved _)
                    [("entries",
                      PList [PStr "a"; PNone; PStr "b"; PStr "a"; PDict []])]
                    [PStr "a"; PNone; PStr "b"; PStr "a"; PDict []]
                    eq_refl eq_refl _).
    discriminate.
  - exact (proj2 (normalize_entries_resolved
                    (track "a" "Intro" audio_formats)) eq_refl).
Defined.

(** C6 as worded fails: an entry that is an empty dict is not null, yet it
    is dropped. *)
Lemma empty_entry_counterexample :
  spec_resolved empty_entry_playlist = [PDict []] /\
  normalize_entries empty_entry_playlist = Ok [].
Proof. split; reflexivity. Qed.

(** ** Runs *)

Section Runs.

Context {B : PyBuiltins} {X : External}.

Lemma prepend_nil {A : Type} (r : outcome A * list event * world) :
  prepend [] r = r.
Proof. now destruct r as [[o t] w]. Qed.

Lemma prepend_prepend {A : Type} (t t' : list event)
  (r : outcome A * list event * world) :
  prepend t (prepend t' r) = prepend (t ++ t') r.
Proof. destruct r as [[o t0] w]. simpl. now rewrite app_assoc. Qed.

Lemma run_bind_ret {A C : Type} (a : A) (k : A -> M C) (w : world) :
  bind (ret a) k w = k a w.
Proof. unfold bind, ret. apply prepend_nil. Qed.

Lemma run_bind_emit {C : Type} (ev : event) (k : unit -> M C) (w : world) :
  bind (emit ev) k w = prepend [ev] (k tt w).
Proof. reflexivity. Qed.

Lemma run_bind_bind {A C D : Type} (m : M A) (k : A -> M C) (k' : C -> M D)
  (w : world) :
  bind (bind m k) k' w = bind m (fun a => bind (k a) k') w.
Proof.
  unfold bind. destruct (m w) as [[[a|e|c] t] w1]; auto.
  destruct (k a w1) as [[[b|e|c] t1] w2]; simpl; auto.
  destruct (k' b w2) as [[o t2] w3]. simpl. now rewrite app_assoc.
Qed.

Lemma classify_entry_with_formats (base d : pydict) (eu : pyval) (w : world) :
  py_truthy (dict_get d "formats") = true ->
  classify_entry base (PDict d) eu w =
  match has_video (PDict d) with
  | Ok b => (Done b, [], w)
  | Raise e => (Done true, [Stderr (analyse_error_msg e)], w)
  end.
Proof.
  intros H. unfold classify_entry, try_except. simpl.
  rewrite run_bind_ret. rewrite H. simpl. rewrite run_bind_ret.
  destruct (has_video (PDict d)); reflexivity.
Qed.

Lemma classify_entry_without_formats (base d : pydict) (w : world) :
  py_truthy (dict_get d "formats") = false ->
  classify_entry base (PDict d) (entry_url_of d) w =
  match ydl_extract_info base (detail_arg_of d) w with
  | (Ok info, w1) =>
      match has_video info with
      | Ok b => (Done b, [ExtractInfo base (detail_arg_of d) (Ok info)], w1)
      | Raise e =>
          (Done true,
           [ExtractInfo base (detail_arg_of d) (Ok info);
            Stderr (analyse_error_msg e)], w1)
      end
  | (Raise e, w1) =>
      (Done true,
       [ExtractInfo base (detail_arg_of d) (Raise e);
        Stderr (analyse_error_msg e)], w1)
  end.
Proof.
  intros H. unfold classify_entry, try_except. simpl.
  rewrite run_bind_ret. rewrite H. simpl.
  assert (Harg : or_else (entry_url_of d) (ret (dict_get d "id")) w
                 = (Done (detail_arg_of d), [], w)).
  { unfold or_else, detail_arg_of, py_or.
    now destruct (py_truthy (entry_url_of d)). }
  rewrite run_bind_bind. unfold bind at 1. rewrite Harg. rewrite prepend_nil.
  unfold bind, extract_info, call.
  destruct (ydl_extract_info base (detail_arg_of d) w) as [[info|e] w1]; simpl.
  - destruct (has_video info); reflexivity.
  - reflexivity.
Qed.

Lemma no_report_for_analysis (e : exn) :
  String.prefix download_error_prefix (analyse_error_msg e) = false.
Proof. reflexivity. Qed.

Lemma report_for_download (e : exn) :
  String.prefix download_error_prefix (download_error_msg e) = true.
Proof. unfold download_error_msg, download_error_prefix. simpl. now destruct (exn_msg e). Qed.

Lemma classify_entry_done (base d : pydict) (w : world) :
  exists b t1 w1,
    classify_entry base (PDict d) (entry_url_of d) w = (Done b, t1, w1) /\
    download_calls t1 = [] /\ download_failure_reports t1 = [].
Proof.
  destruct (py_truthy (dict_get d "formats")) eqn:Hf.
  - rewrite (classify_entry_with_formats _ _ _ _ Hf).
    destruct (has_video (PDict d)); do 3 eexists; repeat split; reflexivity.
  - rewrite (classify_entry_without_formats _ _ _ Hf).
    destruct (ydl_extract_info base (detail_arg_of d) w) as [[info|e] w1].
    + destruct (has_video info); do 3 eexists; repeat split; reflexivity.
    + do 3 eexists; repeat split; reflexivity.
Qed.

Lemma process_entry_run (outdir : string) (quiet : bool)
  (c u p : option string) (h : option pydict) (base d : pydict) (w : world) :
  py_truthy (PDict d) = true ->
  exists b t1 w1 r w2,
    classify_entry base (PDict d) (entry_url_of d) w = (Done b, t1, w1) /\
    ydl_download (entry_opts outdir quiet c u p h b) [entry_url_of d] w1
      = (r, w2) /\
    process_entry outdir quiet c u p h base (PDict d) w =
      (Done tt,
       ([Stdout (nl ++ "Processando: " ++ py_str (title_of d))] ++ t1 ++
        [ Stdout (if b then video_msg else audio_msg);
          Download (entry_opts outdir quiet c u p h b) [entry_url_of d] r;
          completion_event r ])%list,
       w2).
Proof.
  intros Ht.
  destruct (classify_entry_done base d w) as (b & t1 & w1 & Hc & _ & _).
  destruct (ydl_download (entry_opts outdir quiet c u p h b) [entry_url_of d] w1)
    as [r w2] eqn:Hd.
  exists b, t1, w1, r, w2. split; [exact Hc|]. split; [exact Hd|].
  unfold process_entry. rewrite Ht. simpl.
  rewrite run_bind_ret.
  assert (Hu : or_else (dict_get d "webpage_url") (ret (dict_get d "url")) w
               = (Done (entry_url_of d), [], w)).
  { unfold or_else, entry_url_of, py_or.
    now destruct (py_truthy (dict_get d "webpage_url")). }
  unfold bind at 1. rewrite Hu, prepend_nil.
  rewrite run_bind_ret.
  assert (Hti : or_else (dict_get d "title")
                  (bind (ret (dict_get d "id"))
                     (fun id0 => ret (py_or id0 (PStr "untitled")))) w
                = (Done (title_of d), [], w)).
  { change (title_of d)
      with (if py_truthy (dict_get d "title") then dict_get d "title"
            else py_or (dict_get d "id") (PStr "untitled")).
    unfold or_else.
    destruct (py_truthy (dict_get d "title")); [reflexivity|].
    now rewrite run_bind_ret. }
  unfold bind at 1. rewrite Hti, prepend_nil.
  unfold print. rewrite run_bind_emit.
  unfold bind at 1. rewrite Hc.
  rewrite run_bind_emit.
  unfold try_except, bind, download, call, emit. rewrite Hd.
  destruct r as [z|e]; simpl; reflexivity.
Qed.

Lemma download_calls_app (t t' : list event) :
  download_calls (t ++ t') = (download_calls t ++ download_calls t')%list.
Proof. apply flat_map_app. Qed.

Lemma extract_calls_app (t t' : list event) :
  extract_calls (t ++ t') = (extract_calls t ++ extract_calls t')%list.
Proof. apply flat_map_app. Qed.

Lemma stderr_lines_app (t t' : list event) :
  stderr_lines (t ++ t') = (stderr_lines t ++ stderr_lines t')%list.
Proof. apply flat_map_app. Qed.

Lemma download_failure_reports_app (t t' : list event) :
  download_failure_reports (t ++ t') =
  (download_failure_reports t ++ download_failure_reports t')%list.
Proof.
  unfold download_failure_reports. now rewrite stderr_lines_app, filter_app.
Qed.

Lemma raised_app {A : Type} (rs rs' : list (result A)) :
  raised (rs ++ rs') = (raised rs ++ raised rs')%list.
Proof. apply flat_map_app. Qed.

Lemma reports_of_completion (r : result Z) :
  download_failure_reports [completion_event r] =
  map download_error_msg (raised [r]).
Proof.
  destruct r as [z|e]; [reflexivity|].
  unfold download_failure_reports.
  change (stderr_lines [completion_event (Raise e)])
    with [download_error_msg e].
  cbn [filter]. now rewrite report_for_download.
Qed.

(** One entry: the run ends normally, with one download, and a failure
    report exactly when the download raised. *)
Lemma process_entry_summary (outdir : string) (quiet : bool)
  (c u p : option string) (h : option pydict) (base d : pydict) (w : world) :
  py_truthy (PDict d) = true ->
  exists b r t w',
    process_entry outdir quiet c u p h base (PDict d) w = (Done tt, t, w') /\
    outcome_of (classify_entry base (PDict d) (entry_url_of d) w) = Done b /\
    download_calls t =
      [(entry_opts outdir quiet c u p h b, [entry_url_of d], r)] /\
    download_failure_reports t = map download_error_msg (raised [r]).
Proof.
  intros Ht.
  destruct (process_entry_run outdir quiet c u p h base d w Ht)
    as (b & t1 & w1 & r & w2 & Hc & Hd & Hrun).
  destruct (classify_entry_done base d w) as (b' & t1' & w1' & Hc' & Hn1 & Hn2).
  rewrite Hc in Hc'. injection Hc' as <- <- <-.
  exists b, r. eexists. exists w2. split; [exact Hrun|].
  split; [now rewrite Hc|].
  split.
  - rewrite (download_calls_app [_] (t1 ++ _)), download_calls_app, Hn1.
    now destruct r.
  - rewrite (download_failure_reports_app [_] (t1 ++ _)).
    rewrite download_failure_reports_app, Hn2.
    change [Stdout (if b then video_msg else audio_msg);
            Download (entry_opts outdir quiet c u p h b) [entry_url_of d] r;
            completion_event r]
      with ([Stdout (if b then video_msg else audio_msg);
             Download (entry_opts outdir quiet c u p h b) [entry_url_of d] r]
            ++ [completion_event r])%list.
    rewrite download_failure_reports_app, reports_of_completion.
    reflexivity.
Qed.

Lemma for_each_entries_run (outdir : string) (quiet : bool)
  (c u p : option string) (h : option pydict) (base : pydict)
  (entries : list pyval) :
  Forall (fun e => is_dict e = true) entries ->
  forall w : world,
  exists t w',
    for_each entries (process_entry outdir quiet c u p h base) w
      = (Done tt, t, w') /\
    map call_arg (download_calls t) =
      map (fun e => [url_of_entry e]) (filter py_truthy entries) /\
    download_failure_reports t =
      map download_error_msg (raised (map call_result (download_calls t))).
Proof.
  induction 1 as [|e rest He Hrest IH]; intros w.
  - exists [], w. repeat split.
  - destruct e as [| | | | |d]; try discriminate He.
    simpl for_each. cbn [filter].
    destruct (py_truthy (PDict d)) eqn:Ht.
    + destruct (process_entry_summary outdir quiet c u p h base d w Ht)
        as (b & r & t & w1 & Hrun & _ & Hcalls & Hrep).
      destruct (IH w1) as (t' & w2 & Hrun' & Hurls' & Hrep').
      exists (t ++ t')%list, w2. split.
      * unfold bind. rewrite Hrun, Hrun'. reflexivity.
      * rewrite download_calls_app, download_failure_reports_app.
        rewrite !map_app, raised_app, map_app.
        rewrite Hrep, Hrep', Hurls', Hcalls. split; reflexivity.
    + destruct (IH w) as (t' & w2 & Hrun' & Hurls' & Hrep').
      exists t', w2. split; [|split; assumption].
      unfold process_entry. rewrite Ht. simpl.
      rewrite run_bind_ret. exact Hrun'.
Qed.

Lemma initial_info_quiet (base : pydict) (iou info : pyval)
  (t0 : list event) (w w0 : world) :
  initial_info_of base iou w = (Done (Some info), t0, w0) ->
  download_calls t0 = [] /\ stderr_lines t0 = [].
Proof.
  unfold initial_info_of. destruct (is_dict iou).
  - intros [= <- <- <-]. now split.
  - unfold try_except, bind, extract_info, call.
    destruct (ydl_extract_info base iou w) as [[i|e] w1]; simpl.
    + intros [= <- <- <-]. now split.
    + discriminate.
Qed.

Lemma download_entries_resolved (iou : pyval) (outdir : string)
  (verbose : bool) (c u p : option string) (h : option pydict) (w w0 : world)
  (info : pyval) (t0 : list event) (entries : list pyval) :
  initial_info_of (build_base_opts outdir (negb verbose) c u p h) iou w
    = (Done (Some info), t0, w0) ->
  py_truthy info = true ->
  normalize_entries info = Ok entries ->
  download_entries iou outdir verbose c u p h w =
  prepend t0
    (for_each entries
       (process_entry outdir (negb verbose) c u p h
          (build_base_opts outdir (negb verbose) c u p h)) w0).
Proof.
  intros Hi Ht Hn. unfold download_entries. cbv zeta.
  unfold bind at 1. rewrite Hi, Ht. cbn [negb].
  rewrite Hn. simpl lift. now rewrite run_bind_ret.
Qed.

(** C4. When the input is a url and the top-level metadata query raises
    or returns nothing (None or another falsy value), the run consists of
    that query and one line on stderr, and returns: no entry is
    classified, no detail query and no download is made. *)
Theorem failed_resolution_processes_nothing (url : pyval) (outdir : string)
  (verbose : bool) (c u p : option string) (h : option pydict) (w w1 : world)
  (r : result pyval) :
  let base := build_base_opts outdir (negb verbose) c u p h in
  is_dict url = false ->
  ydl_extract_info base url w = (r, w1) ->
  query_failed r = true ->
  download_entries url outdir verbose c u p h w =
  (Done tt, [ExtractInfo base url r; Stderr (resolution_error_msg r)], w1).
Proof.
  intros base Hu Hq Hf. unfold download_entries. cbv zeta. fold base.
  unfold initial_info_of. rewrite Hu.
  unfold bind, try_except, extract_info, call. rewrite Hq.
  destruct r as [info|e]; simpl in *.
  - apply negb_true_iff in Hf. rewrite Hf. reflexivity.
  - reflexivity.
Qed.

(** Properties of a loop over dict entries, from properties of the run of
    each entry. *)
Lemma for_each_entries_fold (outdir : string) (quiet : bool)
  (c u p : option string) (h : option pydict) (base : pydict)
  (S : pydict -> list event -> Prop) (R : list pyval -> list event -> Prop) :
  (forall d w, py_truthy (PDict d) = true ->
     exists t w',
       process_entry outdir quiet c u p h base (PDict d) w = (Done tt, t, w')
       /\ S d t) ->
  R [] [] ->
  (forall d rest t', py_truthy (PDict d) = false -> R rest t' ->
                     R (PDict d :: rest) t') ->
  (forall d rest t t', py_truthy (PDict d) = true -> S d t -> R rest t' ->
                       R (PDict d :: rest) (t ++ t')%list) ->
  forall entries, Forall (fun e => is_dict e = true) entries ->
  forall w, exists t w',
    for_each entries (process_entry outdir quiet c u p h base) w
      = (Done tt, t, w') /\ R entries t.
Proof.
  intros Hone Rnil Rskip Rcons entries.
  induction 1 as [|e rest He _ IH]; intros w.
  - exists [], w. now split.
  - destruct e as [| | | | |d]; try discriminate He. simpl for_each.
    destruct (py_truthy (PDict d)) eqn:Ht.
    + destruct (Hone d w Ht) as (t & w1 & Hrun & HS).
      destruct (IH w1) as (t' & w2 & Hrun' & HR).
      exists (t ++ t')%list, w2. split; [|now apply Rcons].
      unfold bind. rewrite Hrun, Hrun'. reflexivity.
    + destruct (IH w) as (t' & w2 & Hrun' & HR).
      exists t', w2. split; [|now apply Rskip].
      unfold process_entry. rewrite Ht. simpl.
      rewrite run_bind_ret. exact Hrun'.
Qed.

Lemma process_entry_queries (outdir : string) (quiet : bool)
  (c u p : option string) (h : option pydict) (base d : pydict) (w : world) :
  py_truthy (PDict d) = true ->
  exists t w',
    process_entry outdir quiet c u p h base (PDict d) w = (Done tt, t, w') /\
    map call_arg (extract_calls t) =
      if lacks_formats (PDict d) then [detail_arg_of d] else [].
Proof.
  intros Ht.
  destruct (process_entry_run outdir quiet c u p h base d w Ht)
    as (b & t1 & w1 & r & w2 & Hc & Hd & Hrun).
  do 2 eexists. split; [exact Hrun|].
  rewrite (extract_calls_app [_] (t1 ++ _)), extract_calls_app.
  assert (Hq : map call_arg (extract_calls t1) =
               if lacks_formats (PDict d) then [detail_arg_of d] else []).
  { simpl lacks_formats.
    destruct (py_truthy (dict_get d "formats")) eqn:Hf; simpl.
    - rewrite (classify_entry_with_formats _ _ _ _ Hf) in Hc.
      destruct (has_video (PDict d)); injection Hc as <- <- <-; reflexivity.
    - rewrite (classify_entry_without_formats _ _ _ Hf) in Hc.
      destruct (ydl_extract_info base (detail_arg_of d) w) as [[info|e] w1'].
      + destruct (has_video info); injection Hc as <- <- <-; reflexivity.
      + injection Hc as <- <- <-. reflexivity. }
  rewrite !map_app, Hq. destruct r; simpl; apply app_nil_r.
Qed.

Lemma classify_entry_kind (base d : pydict) (w : world) :
  let classification := classify_entry base (PDict d) (entry_url_of d) w in
  let query := ydl_extract_info base (detail_arg_of d) w in
  if py_truthy (dict_get d "formats") then
    classification =
      (Done (kind_of (has_video (PDict d))),
       map Stderr (analysis_report (has_video (PDict d))), w)
  else
    classification =
      (Done (kind_after (fst query)),
       ExtractInfo base (detail_arg_of d) (fst query)
         :: map Stderr (report_after (fst query)),
       snd query).
Proof.
  cbv zeta. destruct (py_truthy (dict_get d "formats")) eqn:Hf.
  - rewrite (classify_entry_with_formats _ _ _ _ Hf).
    now destruct (has_video (PDict d)).
  - rewrite (classify_entry_without_formats _ _ _ Hf).
    destruct (ydl_extract_info base (detail_arg_of d) w) as [[info|e] w1];
      simpl; [|reflexivity].
    now destruct (has_video info).
Qed.

Lemma stderr_lines_map (lines : list string) :
  stderr_lines (map Stderr lines) = lines.
Proof. induction lines as [|l rest IH]; simpl; [reflexivity|]. now f_equal. Qed.

Lemma extract_calls_map_stderr (lines : list string) :
  extract_calls (map Stderr lines) = [].
Proof. now induction lines. Qed.

Lemma process_entry_download (outdir : string) (quiet : bool)
  (c u p : option string) (h : option pydict) (base d : pydict) (w : world) :
  py_truthy (PDict d) = true ->
  exists is_video r t w',
    process_entry outdir quiet c u p h base (PDict d) w = (Done tt, t, w') /\
    download_calls t =
      [(entry_opts outdir quiet c u p h is_video, [entry_url_of d], r)].
Proof.
  intros Ht.
  destruct (process_entry_summary outdir quiet c u p h base d w Ht)
    as (b & r & t & w' & Hrun & _ & Hcalls & _).
  now exists b, r, t, w'.
Qed.

Lemma for_each_entries_downloads (outdir : string) (quiet : bool)
  (c u p : option string) (h : option pydict) (base : pydict)
  (entries : list pyval) :
  Forall (fun e => is_dict e = true) entries ->
  forall w : world,
  exists t w',
    for_each entries (process_entry outdir quiet c u p h base) w
      = (Done tt, t, w') /\
    Forall2 (fun e call =>
               call_arg call = [url_of_entry e] /\
               exists is_video,
                 call_opts call = entry_opts outdir quiet c u p h is_video)
            (filter py_truthy entries) (download_calls t).
Proof.
  intros Hd.
  apply (for_each_entries_fold outdir quiet c u p h base
           (fun d t => exists is_video r,
                download_calls t =
                [(entry_opts outdir quiet c u p h is_video,
                  [entry_url_of d], r)])
           (fun es t =>
              Forall2 (fun e call =>
                         call_arg call = [url_of_entry e] /\
                         exists is_video,
                           call_opts call =
                           entry_opts outdir quiet c u p h is_video)
                      (filter py_truthy es) (download_calls t))).
  - intros d w Ht.
    destruct (process_entry_download outdir quiet c u p h base d w Ht)
      as (b & r & t & w' & Hrun & Hcalls).
    exists t, w'. split; [exact Hrun|]. now exists b, r.
  - constructor.
  - intros d rest t' Hf HR. cbn [filter]. now rewrite Hf.
  - intros d rest t t' Hf (b & r & Hcalls) HR. cbn [filter]. rewrite Hf.
    rewrite download_calls_app, Hcalls. cbn [app].
    constructor; [|exact HR]. split; [reflexivity|]. now exists b.
  - exact Hd.
Qed.

(** C5, amended. The detail query is made exactly for an entry whose
    formats field is falsy (missing, None or empty), once, with the base
    options and with the entry's webpage_url when that is truthy, else its
    url field when that is truthy, else its id. The kind of such an entry
    is what [has_video] says of the answer of the query, not of the entry;
    when the query raises, or [has_video] raises on the answer, the kind
    is VIDEO and the cause is printed on stderr. An entry with truthy
    formats is classified by [has_video] on the entry itself, without a
    query. The download that follows gets the per-entry options of that
    kind and the entry's own url: the detailed metadata reaches it only
    through the kind. In a batch over dict entries the queries after the
    top-level one are, in order, one for each resolved entry without
    formats. *)
Theorem detail_query_rules (iou : pyval) (outdir : string) (verbose : bool)
  (c u p : option string) (h : option pydict) (w w0 : world)
  (info : pyval) (t0 : list event) (entries : list pyval) :
  let quiet := negb verbose in
  let base := build_base_opts outdir quiet c u p h in
  (forall (d : pydict) (w1 : world),
     let classification := classify_entry base (PDict d) (entry_url_of d) w1 in
     let query := ydl_extract_info base (detail_arg_of d) w1 in
     let kind :=
       if py_truthy (dict_get d "formats") then kind_of (has_video (PDict d))
       else kind_after (fst query) in
     detail_arg_of d =
       py_or (py_or (dict_get d "webpage_url") (dict_get d "url"))
             (dict_get d "id") /\
     (py_truthy (dict_get d "formats") = true ->
      extract_calls (trace_of classification) = [] /\
      stderr_lines (trace_of classification) =
        analysis_report (has_video (PDict d))) /\
     (py_truthy (dict_get d "formats") = false ->
      extract_calls (trace_of classification) =
        [(base, detail_arg_of d, fst query)] /\
      (forall detailed, fst query = Ok detailed ->
         outcome_of classification = Done (kind_of (has_video detailed)) /\
         stderr_lines (trace_of classification) =
           analysis_report (has_video detailed)) /\
      (forall e, fst query = Raise e ->
         outcome_of classification = Done true /\
         stderr_lines (trace_of classification) = [analyse_error_msg e])) /\
     outcome_of classification = Done kind /\
     (py_truthy (PDict d) = true ->
      exists r,
        download_calls
          (trace_of (process_entry outdir quiet c u p h base (PDict d) w1))
        = [(entry_opts outdir quiet c u p h kind, [entry_url_of d], r)])) /\
  (initial_info_of base iou w = (Done (Some info), t0, w0) ->
   py_truthy info = true ->
   normalize_entries info = Ok entries ->
   Forall (fun e => is_dict e = true) entries ->
   map call_arg
       (extract_calls
          (trace_of (download_entries iou outdir verbose c u p h w))) =
   (map call_arg (extract_calls t0)
    ++ map detail_arg_of_entry (filter lacks_formats entries))%list).
Proof.
  cbv zeta. split.
  - intros d w1.
    pose proof (classify_entry_kind
                  (build_base_opts outdir (negb verbose) c u p h) d w1) as Hk.
    cbv zeta in Hk.
    split; [reflexivity|].
    destruct (py_truthy (dict_get d "formats")) eqn:Hf.
    + rewrite Hk. unfold trace_of, outcome_of. cbn [fst snd].
      split; [|split; [|split]].
      * intros _. now rewrite extract_calls_map_stderr, stderr_lines_map.
      * discriminate.
      * reflexivity.
      * intros Ht.
        destruct (process_entry_run outdir (negb verbose) c u p h
                    (build_base_opts outdir (negb verbose) c u p h) d w1 Ht)
          as (b & t1 & w2 & r & w3 & Hc & _ & Hrun).
        rewrite Hk in Hc. injection Hc as <- <- <-.
        exists r. rewrite Hrun. cbn [fst snd].
        rewrite (download_calls_app [_] (_ ++ _)), download_calls_app.
        assert (Hz : download_calls
                       (map Stderr (analysis_report (has_video (PDict d))))
                     = []) by (now destruct (has_video (PDict d))).
        rewrite Hz. now destruct r.
    + rewrite Hk. unfold trace_of, outcome_of. cbn [fst snd].
      split; [discriminate|]. split; [|split].
      * intros _. split; [|split].
        -- change (ExtractInfo ?o ?a ?r :: ?l) with ([ExtractInfo o a r] ++ l)%list.
           rewrite extract_calls_app, extract_calls_map_stderr. reflexivity.
        -- intros detailed Hq. rewrite Hq.
           change (ExtractInfo ?o ?a ?r :: ?l) with ([ExtractInfo o a r] ++ l)%list.
           rewrite stderr_lines_app, stderr_lines_map. now split.
        -- intros e Hq. rewrite Hq. now split.
      * reflexivity.
      * intros Ht.
        destruct (process_entry_run outdir (negb verbose) c u p h
                    (build_base_opts outdir (negb verbose) c u p h) d w1 Ht)
          as (b & t1 & w2 & r & w3 & Hc & _ & Hrun).
        rewrite Hk in Hc. injection Hc as <- <- <-.
        exists r. rewrite Hrun. cbn [fst snd].
        rewrite (download_calls_app [_] (_ ++ _)), download_calls_app.
        assert (Hz : forall a,
                   download_calls
                     (ExtractInfo
                        (build_base_opts outdir (negb verbose) c u p h)
                        (detail_arg_of d) a
                      :: map Stderr (report_after a)) = []).
        { intros [detailed|e]; [|reflexivity]. simpl.
          now destruct (has_video detailed). }
        rewrite Hz. now destruct r.
  - intros Hi Ht Hn Hd.
    rewrite (download_entries_resolved _ _ _ _ _ _ _ _ _ _ _ _ Hi Ht Hn).
    destruct (for_each_entries_fold outdir (negb verbose) c u p h
                (build_base_opts outdir (negb verbose) c u p h)
                (fun d t => map call_arg (extract_calls t) =
                            if lacks_formats (PDict d) then [detail_arg_of d]
                            else [])
                (fun es t => map call_arg (extract_calls t) =
                             map detail_arg_of_entry
                                 (filter lacks_formats (filter py_truthy es))))
      with (entries := entries) (w := w0) as (t & w' & Hrun & HR).
    + intros d w1 Hd1. now apply process_entry_queries.
    + reflexivity.
    + intros d rest t' Hf HR. cbn [filter]. now rewrite Hf.
    + intros d rest t1 t' Hf HS HR. cbn [filter]. rewrite Hf. cbn [filter].
      rewrite extract_calls_app, map_app, HS, HR.
      now destruct (lacks_formats (PDict d)).
    + exact Hd.
    + rewrite Hrun. unfold trace_of. simpl.
      rewrite extract_calls_app, map_app, HR.
      now rewrite (filter_all_true _ _ (normalize_entries_truthy _ _ Ht Hn)).
Qed.

(** C10, amended. When the top-level resolution gives [info] and the
    resolved entries are dicts, the run ends normally and its downloads
    are, in order, exactly one for each resolved entry: its argument is
    the one-element list holding the entry's webpage_url when that is
    truthy and its url field otherwise (None when that is missing), its
    options are the per-entry options of one of the two kinds. This holds
    in every world, whatever the detail queries and the downloads answer
    or raise. (A resolved entry that is not a dict stops the run with an
    AttributeError, so the entries after it get no download.) *)
Theorem one_download_per_resolved_entry (iou : pyval) (outdir : string)
  (verbose : bool) (c u p : option string) (h : option pydict) (w w0 : world)
  (info : pyval) (t0 : list event) (entries : list pyval) :
  initial_info_of (build_base_opts outdir (negb verbose) c u p h) iou w
    = (Done (Some info), t0, w0) ->
  py_truthy info = true ->
  normalize_entries info = Ok entries ->
  Forall (fun e => is_dict e = true) entries ->
  let run := download_entries iou outdir verbose c u p h w in
  outcome_of run = Done tt /\
  length (download_calls (trace_of run)) = length entries /\
  Forall2 (fun e call =>
             call_arg call =
               [py_or (field_of e "webpage_url") (field_of e "url")] /\
             exists is_video,
               call_opts call =
               entry_opts outdir (negb verbose) c u p h is_video)
          entries (download_calls (trace_of run)).
Proof.
  intros Hi Ht Hn Hd run. subst run.
  rewrite (download_entries_resolved _ _ _ _ _ _ _ _ _ _ _ _ Hi Ht Hn).
  destruct (for_each_entries_downloads outdir (negb verbose) c u p h
              (build_base_opts outdir (negb verbose) c u p h) entries Hd w0)
    as (t & w' & Hrun & Hall).
  rewrite Hrun. unfold outcome_of, trace_of. simpl.
  destruct (initial_info_quiet _ _ _ _ _ _ Hi) as [Hq _].
  rewrite download_calls_app, Hq. cbn [app].
  rewrite (filter_all_true _ _ (normalize_entries_truthy _ _ Ht Hn)) in Hall.
  assert (Hall' :
    Forall2 (fun e call =>
               call_arg call =
                 [py_or (field_of e "webpage_url") (field_of e "url")] /\
               exists is_video,
                 call_opts call =
                 entry_opts outdir (negb verbose) c u p h is_video)
            entries (download_calls t)).
  { clear Hrun Hn Hi. revert Hd.
    induction Hall as [|e call es calls [Harg Hopts] _ IH]; intros Hd;
      [constructor|].
    inversion Hd as [|? ? He Hes]; subst.
    constructor; [|now apply IH].
    split; [|exact Hopts].
    destruct e; try discriminate He. exact Harg. }
  split; [reflexivity|]. split; [|exact Hall'].
  symmetry. exact (Forall2_length Hall').
Qed.

(** C2, amended. When the top-level resolution gives [info] and the
    resolved entries are dicts, the run ends normally whatever the
    downloads do, the downloads are invoked for every resolved entry in
    order, each with the entry's url, and the download failures reported
    on stderr are, in order, the line "Erro durante o download/processing:"
    followed by the message of each exception a download raised (the
    entry's title is not part of the report). *)
Theorem download_failures_are_isolated (iou : pyval) (outdir : string)
  (verbose : bool) (c u p : option string) (h : option pydict) (w w0 : world)
  (info : pyval) (t0 : list event) (entries : list pyval) :
  initial_info_of (build_base_opts outdir (negb verbose) c u p h) iou w
    = (Done (Some info), t0, w0) ->
  py_truthy info = true ->
  normalize_entries info = Ok entries ->
  Forall (fun e => is_dict e = true) entries ->
  let run := download_entries iou outdir verbose c u p h w in
  outcome_of run = Done tt /\
  map call_arg (download_calls (trace_of run)) =
    map (fun e => [url_of_entry e]) entries /\
  download_failure_reports (trace_of run) =
    map download_error_msg
        (raised (map call_result (download_calls (trace_of run)))).
Proof.
  intros Hi Ht Hn Hd run. subst run.
  rewrite (download_entries_resolved _ _ _ _ _ _ _ _ _ _ _ _ Hi Ht Hn).
  destruct (for_each_entries_run outdir (negb verbose) c u p h
              (build_base_opts outdir (negb verbose) c u p h) entries Hd w0)
    as (t & w' & Hrun & Hurls & Hrep).
  rewrite Hrun. unfold outcome_of, trace_of. simpl.
  destruct (initial_info_quiet _ _ _ _ _ _ Hi) as [Hq1 Hq2].
  rewrite download_calls_app, download_failure_reports_app, Hq1.
  unfold download_failure_reports at 1. rewrite Hq2. simpl.
  rewrite (filter_all_true _ _ (normalize_entries_truthy _ _ Ht Hn)) in Hurls.
  auto.
Qed.

End Runs.

Lemma download_failures_are_isolated_witness :
  outcome_of playlist3_run = Done tt /\
  map call_arg (download_calls (trace_of playlist3_run)) =
    [ [PStr "https://example.org/a"]; [PStr "https://example.org/b"];
      [PStr "https://example.org/c"] ] /\
  download_failure_reports (trace_of playlist3_run) =
    [ "Erro durante o download/processing: ERROR: HTTP Error 403" ].
Proof.
  pose proof (@download_failures_are_isolated sample_builtins
                playlist3_external (PStr "https://example.org/pl") "/out"
                false None None None None tt tt playlist3
                [ExtractInfo
                   (build_base_opts "/out" true None None None None)
                   (PStr "https://example.org/pl") (Ok playlist3)]
                _ eq_refl eq_refl eq_refl) as H.
  vm_compute in H. vm_compute. apply H. repeat constructor.
Defined.

Lemma failed_resolution_processes_nothing_witness :
  @download_entries sample_builtins
     (stub_external never_answers fails_on_b "y" [])
     (PStr "https://example.org/pl") "/out" false None None None None tt =
  (Done tt,
   [ ExtractInfo (build_base_opts "/out" true None None None None)
       (PStr "https://example.org/pl") (Raise unavailable);
     Stderr "Erro ao extrair informações iniciais da URL: ERROR: Video unavailable" ],
   tt) /\
  @download_entries sample_builtins
     (stub_external answers_none fails_on_b "y" [])
     (PStr "https://example.org/pl") "/out" false None None None None tt =
  (Done tt,
   [ ExtractInfo (build_base_opts "/out" true None None None None)
       (PStr "https://example.org/pl") (Ok PNone);
     Stderr "Nenhuma informação foi obtida da URL." ],
   tt).
Proof.
  split.
  - exact (@failed_resolution_processes_nothing sample_builtins
             (stub_external never_answers fails_on_b "y" [])
             (PStr "https://example.org/pl") "/out" false None None None None
             tt tt (Raise unavailable) eq_refl eq_refl eq_refl).
  - exact (@failed_resolution_processes_nothing sample_builtins
             (stub_external answers_none fails_on_b "y" [])
             (PStr "https://example.org/pl") "/out" false None None None None
             tt tt (Ok PNone) eq_refl eq_refl eq_refl).
Defined.

(** C2 as worded fails: the download of "Clip" raises, and the only line
    on stderr carries the exception's message, not the title; the title
    was printed on stdout. *)
Lemma failure_report_lacks_title_counterexample :
  title_of [ ("id", PStr "b"); ("title", PStr "Clip");
             ("webpage_url", PStr "https://example.org/b");
             ("formats", video_formats) ] = PStr "Clip" /\
  stderr_lines (trace_of playlist3_run) =
    [ "Erro durante o download/processing: ERROR: HTTP Error 403" ] /\
  existsb (str_contains "Clip") (stderr_lines (trace_of playlist3_run))
    = false /\
  existsb (str_contains "Clip") (stdout_lines (trace_of playlist3_run))
    = true.
Proof. repeat split. Qed.

Lemma detail_query_rules_witness :
  let base := build_base_opts "/out" true None None None None in
  extract_calls
    (trace_of (@classify_entry flat_item_external base
                 (track "a" "Intro" audio_formats)
                 (PStr "https://example.org/a") tt)) = [] /\
  (extract_calls
     (trace_of (@classify_entry flat_item_external base
                  (PDict flat_item) (entry_url_of flat_item) tt))
   = [(base, PStr "https://example.org/v/x1",
       Ok (track "x1" "Talk" audio_formats))] /\
   outcome_of
     (@classify_entry flat_item_external base
        (PDict flat_item) (entry_url_of flat_item) tt) = Done false) /\
  outcome_of
    (@classify_entry mixed_playlist_external base
       (PDict flat_item) (entry_url_of flat_item) tt) = Done true /\
  (exists r,
     download_calls
       (trace_of (@process_entry sample_builtins flat_item_external "/out"
                    true None None None None base (PDict flat_item) tt))
     = [(entry_opts "/out" true None None None None false,
         [PStr "https://example.org/v/x1"], r)]) /\
  map call_arg
      (extract_calls
         (trace_of (@download_entries sample_builtins mixed_playlist_external
                      (PStr "https://example.org/pl") "/out" false
                      None None None None tt)))
  = [PStr "https://example.org/pl"; PStr "https://example.org/v/x1"].
Proof.
  intros base.
  pose proof (@detail_query_rules sample_builtins flat_item_external
                (PStr "https://example.org/pl") "/out" false
                None None None None tt tt PNone [] []) as Hflat.
  pose proof (@detail_query_rules sample_builtins mixed_playlist_external
                (PStr "https://example.org/pl") "/out" false
                None None None None tt tt (PDict mixed_playlist)
                [ExtractInfo base (PStr "https://example.org/pl")
                   (Ok (PDict mixed_playlist))]
                [track "a" "Intro" audio_formats; PDict flat_item]) as Hmixed.
  cbv zeta in Hflat, Hmixed.
  destruct Hflat as [Hflat _]. destruct Hmixed as [Hmixed Hbatch].
  destruct (Hflat [ ("id", PStr "a"); ("title", PStr "Intro");
                    ("webpage_url", PStr "https://example.org/a");
                    ("formats", audio_formats) ] tt)
    as (_ & Hwith & _).
  destruct (Hflat flat_item tt) as (_ & _ & Hwithout & _ & Hdl).
  destruct (Hmixed flat_item tt) as (_ & _ & Hraise & _).
  split; [exact (proj1 (Hwith eq_refl))|].
  split.
  { destruct (Hwithout eq_refl) as (Hq & Hok & _). split; [exact Hq|].
    exact (proj1 (Hok (track "x1" "Talk" audio_formats) eq_refl)). }
  split.
  { destruct (Hraise eq_refl) as (_ & _ & Hr).
    exact (proj1 (Hr unavailable eq_refl)). }
  split; [exact (Hdl eq_refl)|].
  apply Hbatch; try reflexivity. repeat constructor.
Defined.

(** C5 as worded fails: the item has no webpage_url, so the identifier
    "x1" should be queried, but the query is made with the url field. *)
Lemma detail_query_uses_url_counterexample :
  dict_lookup flat_item "webpage_url" = None /\
  spec_detail_arg flat_item = PStr "x1" /\
  map call_arg
    (extract_calls
       (trace_of (@classify_entry flat_item_external
                    (build_base_opts "/out" true None None None None)
                    (PDict flat_item) (entry_url_of flat_item) tt)))
  = [PStr "https://example.org/v/x1"].
Proof. repeat split. Qed.

Lemma one_download_per_resolved_entry_witness :
  let run :=
    @download_entries sample_builtins mixed_playlist_external
      (PStr "https://example.org/pl") "/out" false None None None None tt in
  outcome_of run = Done tt /\
  length (download_calls (trace_of run)) = 2 /\
  Forall2 (fun e call =>
             call_arg call =
               [py_or (field_of e "webpage_url") (field_of e "url")] /\
             exists is_video,
               call_opts call =
               entry_opts "/out" true None None None None is_video)
          [track "a" "Intro" audio_formats; PDict flat_item]
          (download_calls (trace_of run)).
Proof.
  refine (@one_download_per_resolved_entry sample_builtins
            mixed_playlist_external (PStr "https://example.org/pl") "/out"
            false None None None None tt tt (PDict mixed_playlist)
            [ExtractInfo (build_base_opts "/out" true None None None None)
               (PStr "https://example.org/pl") (Ok (PDict mixed_playlist))]
            [track "a" "Intro" audio_formats; PDict flat_item]
            eq_refl eq_refl eq_refl _).
  repeat constructor.
Defined.

(** C10 as worded fails: the webpage_url is present (the empty str), yet
    the download is given the url field. *)
Lemma blank_webpage_url_counterexample :
  dict_lookup blank_page_item "webpage_url" = Some (PStr "") /\
  spec_entry_url blank_page_item = PStr "" /\
  map call_arg
    (download_calls
       (trace_of (@process_entry sample_builtins flat_item_external "/out"
                    true None None None None
                    (build_base_opts "/out" true None None None None)
                    (PDict blank_page_item) tt)))
  = [[PStr "https://example.org/v/x2"]].
Proof. repeat split. Qed.

(** ** Verbosity *)

Section Blind.

Context {B : PyBuiltins} {X : External}.

Lemma same_run_refl {A : Type} (r : outcome A * list event * world) :
  same_run r r.
Proof. now repeat split. Qed.

Lemma bind_same {A C : Type} (m m' : M A) (k k' : A -> M C) (w : world) :
  same_run (m w) (m' w) ->
  (forall a w1, same_run (k a w1) (k' a w1)) ->
  same_run (bind m k w) (bind m' k' w).
Proof.
  unfold same_run, bind, outcome_of, trace_of, world_of.
  destruct (m w) as [[o t] w1], (m' w) as [[o' t'] w1']. simpl.
  intros (-> & Ht & <-) Hk.
  destruct o' as [a|e|code]; simpl; auto.
  specialize (Hk a w1).
  destruct (k a w1) as [[o2 t2] w2], (k' a w1) as [[o2' t2'] w2']. simpl in *.
  destruct Hk as (-> & Ht2 & <-).
  now rewrite !map_app, Ht, Ht2.
Qed.

Lemma try_except_same {A : Type} (m m' : M A) (hd hd' : exn -> M A)
  (w : world) :
  same_run (m w) (m' w) ->
  (forall e w1, same_run (hd e w1) (hd' e w1)) ->
  same_run (try_except m hd w) (try_except m' hd' w).
Proof.
  unfold same_run, try_except, outcome_of, trace_of, world_of.
  destruct (m w) as [[o t] w1], (m' w) as [[o' t'] w1']. simpl.
  intros (-> & Ht & <-) Hk.
  destruct o' as [a|e|code]; simpl; auto.
  specialize (Hk e w1).
  destruct (hd e w1) as [[o2 t2] w2], (hd' e w1) as [[o2' t2'] w2']. simpl in *.
  destruct Hk as (-> & Ht2 & <-).
  now rewrite !map_app, Ht, Ht2.
Qed.

Lemma erase_base_opts (outdir : string) (q q' : bool) (c u p : option string)
  (h : option pydict) :
  erase_verbosity (build_base_opts outdir q c u p h) =
  erase_verbosity (build_base_opts outdir q' c u p h).
Proof.
  destruct c as [[|a1 s1]|], u as [[|a2 s2]|], p as [[|a3 s3]|],
    h as [[|kv rest]|]; reflexivity.
Qed.

Lemma erase_entry_opts (outdir : string) (q q' : bool) (c u p : option string)
  (h : option pydict) (is_video : bool) :
  erase_verbosity (entry_opts outdir q c u p h is_video) =
  erase_verbosity (entry_opts outdir q' c u p h is_video).
Proof.
  destruct is_video, c as [[|a1 s1]|], u as [[|a2 s2]|], p as [[|a3 s3]|],
    h as [[|kv rest]|]; reflexivity.
Qed.

Hypothesis blind : verbosity_blind X.

Lemma extract_info_same (o o' : pydict) (arg : pyval) (w : world) :
  erase_verbosity o = erase_verbosity o' ->
  same_run (extract_info o arg w) (extract_info o' arg w).
Proof.
  intros Ho. unfold extract_info, call.
  rewrite (proj1 blind o o' arg w Ho).
  destruct (ydl_extract_info o' arg w) as [[a|e] w1];
    repeat split; simpl; now rewrite Ho.
Qed.

Lemma download_same (o o' : pydict) (urls : list pyval) (w : world) :
  erase_verbosity o = erase_verbosity o' ->
  same_run (download o urls w) (download o' urls w).
Proof.
  intros Ho. unfold download, call.
  rewrite (proj2 blind o o' urls w Ho).
  destruct (ydl_download o' urls w) as [[a|e] w1];
    repeat split; simpl; now rewrite Ho.
Qed.

Lemma classify_entry_same (base base' : pydict) (entry eu : pyval) (w : world) :
  erase_verbosity base = erase_verbosity base' ->
  same_run (classify_entry base entry eu w) (classify_entry base' entry eu w).
Proof.
  intros Hb. unfold classify_entry.
  apply try_except_same; [|intros; apply same_run_refl].
  apply bind_same; [apply same_run_refl|]. intros formats w1.
  apply bind_same; [|intros; apply same_run_refl].
  destruct (negb (py_truthy formats)); [|apply same_run_refl].
  apply bind_same; [apply same_run_refl|]. intros arg w2.
  now apply extract_info_same.
Qed.

(** A statement that makes no call runs alike on both sides. *)
Ltac skip_pure := apply bind_same; [apply same_run_refl|].

Lemma process_entry_same (outdir : string) (q q' : bool)
  (c u p : option string) (h : option pydict) (base base' : pydict)
  (entry : pyval) (w : world) :
  erase_verbosity base = erase_verbosity base' ->
  same_run (process_entry outdir q c u p h base entry w)
           (process_entry outdir q' c u p h base' entry w).
Proof.
  intros Hb. unfold process_entry.
  destruct (negb (py_truthy entry)); [apply same_run_refl|].
  skip_pure; intros webpage_url w1.
  skip_pure; intros entry_url w2.
  skip_pure; intros title0 w3.
  skip_pure; intros title w4.
  skip_pure; intros _ w5.
  apply bind_same; [now apply classify_entry_same|]. intros is_video w6.
  skip_pure; intros _ w7.
  apply try_except_same; [|intros; apply same_run_refl].
  apply bind_same; [|intros; apply same_run_refl].
  apply download_same, erase_entry_opts.
Qed.

Lemma for_each_same (outdir : string) (q q' : bool)
  (c u p : option string) (h : option pydict) (base base' : pydict)
  (entries : list pyval) :
  erase_verbosity base = erase_verbosity base' ->
  forall w : world,
    same_run (for_each entries (process_entry outdir q c u p h base) w)
             (for_each entries (process_entry outdir q' c u p h base') w).
Proof.
  intros Hb. induction entries as [|e rest IH]; intros w; simpl.
  - apply same_run_refl.
  - apply bind_same; [now apply process_entry_same|]. intros _ w1. apply IH.
Qed.

(** C9. With a collaborator whose answers do not depend on [quiet] and
    [no_warnings], two runs that differ only in the verbosity flag end
    alike and make the same calls in the same order, with options that
    are equal once [quiet] and [no_warnings] are removed; so are the base
    options and the per-entry options of either kind. *)
Theorem verbosity_only_changes_quiet_fields (iou : pyval) (outdir : string)
  (verbose verbose' : bool) (c u p : option string) (h : option pydict)
  (w : world) :
  same_run (download_entries iou outdir verbose c u p h w)
           (download_entries iou outdir verbose' c u p h w) /\
  erase_verbosity (build_base_opts outdir (negb verbose) c u p h) =
  erase_verbosity (build_base_opts outdir (negb verbose') c u p h) /\
  (forall is_video : bool,
     erase_verbosity (entry_opts outdir (negb verbose) c u p h is_video) =
     erase_verbosity (entry_opts outdir (negb verbose') c u p h is_video)).
Proof.
  split; [|split; [apply erase_base_opts|intro; apply erase_entry_opts]].
  unfold download_entries. cbv zeta.
  apply bind_same.
  - unfold initial_info_of. destruct (is_dict iou); [apply same_run_refl|].
    apply try_except_same; [|intros; apply same_run_refl].
    apply bind_same; [|intros; apply same_run_refl].
    apply extract_info_same, erase_base_opts.
  - intros [info|] w1; [|apply same_run_refl].
    destruct (negb (py_truthy info)); [apply same_run_refl|].
    apply bind_same; [apply same_run_refl|]. intros entries w2.
    apply for_each_same, erase_base_opts.
Qed.

End Blind.

Lemma verbosity_only_changes_quiet_fields_witness :
  verbosity_blind playlist3_external /\
  same_run
    (@download_entries sample_builtins playlist3_external
       (PStr "https://example.org/pl") "/out" false None None None None tt)
    (@download_entries sample_builtins playlist3_external
       (PStr "https://example.org/pl") "/out" true None None None None tt).
Proof.
  assert (Hb : verbosity_blind playlist3_external)
    by (split; intros; reflexivity).
  split; [exact Hb|].
  exact (proj1 (@verbosity_only_changes_quiet_fields sample_builtins
                  playlist3_external Hb (PStr "https://example.org/pl")
                  "/out" false true None None None None tt)).
Defined.

(** ** The --headers argument *)

Section Headers.

Context {B : PyBuiltins} {X : External}.

Lemma dict_set_fresh (d : pydict) (k : string) (v : pyval) :
  ~ In k (map fst d) -> dict_set d k v = (d ++ [(k, v)])%list.
Proof.
  induction d as [|[k' v'] rest IH]; simpl; intros Hn; [reflexivity|].
  destruct (k' =? k) eqn:E.
  - apply String.eqb_eq in E. tauto.
  - rewrite IH; tauto.
Qed.

Lemma stringify_items_from (acc parsed : pydict) :
  NoDup (map fst acc ++ map fst parsed) ->
  fold_left (fun acc kv => dict_set acc (fst kv) (PStr (py_str (snd kv))))
            parsed acc
  = (acc ++ map (fun kv => (fst kv, PStr (py_str (snd kv)))) parsed)%list.
Proof.
  revert acc. induction parsed as [|[k v] rest IH]; intros acc Hnd; simpl.
  - now rewrite app_nil_r.
  - rewrite dict_set_fresh.
    + rewrite IH.
      * now rewrite <- app_assoc.
      * rewrite map_app. simpl. rewrite <- app_assoc. exact Hnd.
    + simpl in Hnd. apply NoDup_remove_2 in Hnd.
      intros Hin. apply Hnd. apply in_or_app. now left.
Qed.

Lemma stringify_items_distinct (parsed : pydict) :
  NoDup (map fst parsed) ->
  stringify_items parsed =
  map (fun kv => (fst kv, PStr (py_str (snd kv)))) parsed.
Proof. intros H. unfold stringify_items. now rewrite stringify_items_from. Qed.

Lemma opt_str_truthy_some (s : string) :
  s <> "" -> opt_str_truthy (Some s) = true.
Proof.
  intros H. simpl. apply negb_true_iff. now apply String.eqb_neq.
Qed.

Lemma parse_headers_run (s : string) (w : world) :
  s <> "" ->
  parse_headers (Some s) w =
  match json_loads s with
  | Ok (PDict d) => (Done (Some (stringify_items d)), [], w)
  | Ok _ => (Done None, [Stderr headers_not_object_msg], w)
  | Raise e =>
      if exn_class e =? "JSONDecodeError"
      then (Done None,
            [Stderr ("ERRO ao parsear --headers JSON: " ++ exn_msg e)], w)
      else (Throw e, [], w)
  end.
Proof.
  intros Hs. unfold parse_headers. rewrite (opt_str_truthy_some s Hs).
  cbn [negb].
  destruct (json_loads s) as [[| | | | |d]|e]; try reflexivity.
  now destruct (exn_class e =? "JSONDecodeError").
Qed.

Lemma main_rejects (args : Args) (s : string) (w : world) :
  arg_headers args = Some s -> s <> "" ->
  not_an_object (json_loads s) = true ->
  exists o t w',
    main args w = (o, t, w') /\ exit_status o = 1%Z /\ no_resolution t.
Proof.
  intros Hh Hs Hn. unfold main. cbv zeta. rewrite Hh.
  unfold bind at 1. unfold makedirs, call.
  destruct (os_makedirs (os_path_abspath (arg_outdir args)) w) as [[[]|e] w1].
  2: { do 3 eexists. split; [reflexivity|]. repeat split. }
  unfold bind at 1. rewrite (parse_headers_run s w1 Hs).
  rewrite (opt_str_truthy_some s Hs).
  destruct (json_loads s) as [[| | | | |d]|e]; try discriminate Hn;
    try (do 3 eexists; split; [reflexivity|]; repeat split; fail).
  destruct (exn_class e =? "JSONDecodeError");
    do 3 eexists; (split; [reflexivity|]); repeat split.
Qed.

(** C8, amended. For a non-empty --headers text: when [json.loads] gives
    a dict, [parse_headers] returns, without output, the dict built by
    setting str(value) under each key in turn (for distinct keys: the
    same keys in the same order, every value replaced by its str); when
    [json.loads] gives anything else or raises, the script ends with exit
    status 1 before any metadata query or download. (An empty text is
    taken as no headers.) *)
Theorem headers_argument_handling (args : Args) (s : string) (w : world) :
  arg_headers args = Some s -> s <> "" ->
  (forall d, json_loads s = Ok (PDict d) ->
     parse_headers (Some s) w = (Done (Some (stringify_items d)), [], w) /\
     (NoDup (map fst d) ->
      stringify_items d =
      map (fun kv => (fst kv, PStr (py_str (snd kv)))) d)) /\
  (not_an_object (json_loads s) = true ->
   fst (fst (run_script args w)) = 1%Z /\
   no_resolution (snd (fst (run_script args w)))).
Proof.
  intros Hh Hs. split.
  - intros d Hd. split; [|apply stringify_items_distinct].
    now rewrite (parse_headers_run s w Hs), Hd.
  - intros Hn.
    destruct (main_rejects args s w Hh Hs Hn) as (o & t & w' & Hm & H1 & H2).
    unfold run_script. rewrite Hm. now split.
Qed.
End Headers.

Lemma headers_argument_handling_witness :
  @parse_headers sample_builtins playlist3_external (Some headers_example) tt
  = (Done (Some [("A", PStr "1"); ("B", PStr "2")]), [], tt) /\
  fst (fst (@run_script sample_builtins playlist3_external
              (sample_args (Some "[1,2]") false) tt)) = 1%Z /\
  no_resolution
    (snd (fst (@run_script sample_builtins playlist3_external
                 (sample_args (Some "[1,2]") false) tt))).
Proof.
  split.
  - refine (proj1 (proj1 (@headers_argument_handling sample_builtins
              playlist3_external (sample_args (Some headers_example) false)
              headers_example tt eq_refl _)
              [("A", PStr "1"); ("B", PInt 2)] eq_refl)).
    discriminate.
  - refine (proj2 (@headers_argument_handling sample_builtins
              playlist3_external (sample_args (Some "[1,2]") false)
              "[1,2]" tt eq_refl _) eq_refl).
    discriminate.
Defined.

(** C8 as worded fails: the empty text is not valid JSON, yet with
    [--headers ''] the run goes on to the metadata query and ends with
    status 0. *)
Lemma empty_headers_counterexample :
  @json_loads sample_builtins "" = Raise json_decode_error /\
  fst (fst (@run_script sample_builtins playlist3_external
              (sample_args (Some "") false) tt)) = 0%Z /\
  length (extract_calls
            (snd (fst (@run_script sample_builtins playlist3_external
                         (sample_args (Some "") false) tt)))) = 1.
Proof. repeat split. Qed.

(* ================================================================== *)
(** * Further properties *)
(* ================================================================== *)

(** ** More on the classifier *)

Lemma formats_loop_codec_counts (l : list pyval) :
  Forall (fun f => is_dict f = true) l ->
  formats_loop l = Ok (existsb codec_counts l).
Proof.
  induction 1 as [|f rest Hf _ IH]; [reflexivity|].
  destruct f as [| | | | |fd]; try discriminate Hf.
  simpl. destruct (py_truthy _ && py_ne_str _ _); simpl; auto.
Qed.

Lemma formats_loop_found (pre post : list pyval) (f : pyval) :
  Forall (fun x => is_dict x = true) pre ->
  codec_counts f = true ->
  formats_loop (pre ++ f :: post) = Ok true.
Proof.
  intros Hpre Hf. induction Hpre as [|x rest Hx _ IH]; simpl.
  - destruct f as [| | | | |fd]; try discriminate Hf.
    simpl in *. now rewrite Hf.
  - destruct x as [| | | | |xd]; try discriminate Hx.
    simpl. now destruct (py_truthy _ && py_ne_str _ _).
Qed.

Lemma formats_loop_malformed (pre post : list pyval) (f : pyval) :
  Forall (fun x => is_dict x = true /\ codec_counts x = false) pre ->
  is_dict f = false ->
  formats_loop (pre ++ f :: post) = Raise (attribute_error f "get").
Proof.
  intros Hpre Hf. induction Hpre as [|x rest [Hx Hc] _ IH]; simpl.
  - now destruct f.
  - destruct x as [| | | | |xd]; try discriminate Hx.
    simpl in *. now rewrite Hc.
Qed.

Lemma iter_nonempty_list (l : list pyval) :
  l <> [] -> py_iter (py_or (PList l) (PList [])) = Ok l.
Proof. now destruct l. Qed.

Lemma formats_loop_same_codecs (l l' : list pyval) :
  Forall2 (fun f f' => py_get f "vcodec" = py_get f' "vcodec") l l' ->
  formats_loop l = formats_loop l'.
Proof.
  induction 1 as [|f f' rest rest' Hf _ IH]; [reflexivity|].
  simpl. rewrite Hf. destruct (py_get f' "vcodec") as [vcodec|e]; simpl; auto.
  now rewrite IH.
Qed.

(** X1. [has_video] depends only on the vcodec of each descriptor and on
    is_live, width and height: two dicts that agree on these (or whose
    formats fields are equal) get the same answer, the same exception
    included, whatever else the dicts and their descriptors hold. *)
Theorem has_video_ignores_other_data (d d' : pydict) :
  (dict_get d "formats" = dict_get d' "formats" \/
   exists l l',
     dict_get d "formats" = PList l /\ dict_get d' "formats" = PList l' /\
     Forall2 (fun f f' => py_get f "vcodec" = py_get f' "vcodec") l l') ->
  dict_get d "is_live" = dict_get d' "is_live" ->
  dict_get d "width" = dict_get d' "width" ->
  dict_get d "height" = dict_get d' "height" ->
  has_video (PDict d) = has_video (PDict d').
Proof.
  intros Hf Hl Hw Hh. unfold has_video. simpl. rewrite Hl, Hw, Hh.
  destruct Hf as [->|(l & l' & -> & -> & Hall)]; [reflexivity|].
  pose proof (formats_loop_same_codecs l l' Hall) as Hloop.
  destruct Hall as [|f f' rest rest' Hf Hrest]; [reflexivity|].
  simpl. simpl in Hloop. now rewrite Hloop.
Qed.

Lemma has_video_ignores_other_data_witness :
  has_video (PDict [ ("id", PStr "a"); ("title", PStr "Intro");
                     ("formats",
                      PList [PDict [ ("format_id", PStr "251");
                                     ("vcodec", PStr "none");
                                     ("acodec", PStr "opus") ]]);
                     ("duration", PInt 3) ])
  = has_video (PDict [ ("formats", audio_formats) ]).
Proof.
  refine (has_video_ignores_other_data
            [ ("id", PStr "a"); ("title", PStr "Intro");
              ("formats",
               PList [PDict [ ("format_id", PStr "251");
                              ("vcodec", PStr "none");
                              ("acodec", PStr "opus") ]]);
              ("duration", PInt 3) ]
            [ ("formats", audio_formats) ]
            (or_intror (ex_intro _ _ (ex_intro _ _
               (conj eq_refl (conj eq_refl _))))) eq_refl eq_refl eq_refl).
  repeat constructor.
Defined.

(** X2. The first descriptor with a truthy vcodec other than "none"
    settles the answer: when the descriptors before it are dicts,
    [has_video] returns True whatever follows in the list (malformed
    descriptors included) and whatever the other fields are. *)
Theorem has_video_first_codec_wins (d : pydict) (pre post : list pyval)
  (f : pyval) :
  dict_get d "formats" = PList (pre ++ f :: post) ->
  Forall (fun x => is_dict x = true) pre ->
  codec_counts f = true ->
  has_video (PDict d) = Ok true.
Proof.
  intros Hg Hpre Hf. unfold has_video. simpl. rewrite Hg.
  rewrite iter_nonempty_list by (now destruct pre).
  simpl. now rewrite (formats_loop_found pre post f Hpre Hf).
Qed.

Lemma has_video_first_codec_wins_witness :
  has_video
    (PDict [ ("formats",
              PList [ PDict [("vcodec", PStr "none")];
                      PDict [("vcodec", PStr "vp9")];
                      PNone; PInt 7 ]) ]) = Ok true.
Proof.
  refine (has_video_first_codec_wins
            [ ("formats",
               PList [ PDict [("vcodec", PStr "none")];
                       PDict [("vcodec", PStr "vp9")];
                       PNone; PInt 7 ]) ]
            [PDict [("vcodec", PStr "none")]]
            [PNone; PInt 7] (PDict [("vcodec", PStr "vp9")]) eq_refl _ eq_refl).
  repeat constructor.
Defined.

(** X3. A descriptor that is not a dict, met before any descriptor that
    counts, makes [has_video] raise the AttributeError of its missing
    [get] method, even when is_live, width or height would have made the
    entry a video. *)
Theorem has_video_malformed_descriptor (d : pydict) (pre post : list pyval)
  (f : pyval) :
  dict_get d "formats" = PList (pre ++ f :: post) ->
  Forall (fun x => is_dict x = true /\ codec_counts x = false) pre ->
  is_dict f = false ->
  has_video (PDict d) = Raise (attribute_error f "get").
Proof.
  intros Hg Hpre Hf. unfold has_video. simpl. rewrite Hg.
  rewrite iter_nonempty_list by (now destruct pre).
  simpl. now rewrite (formats_loop_malformed pre post f Hpre Hf).
Qed.

Lemma has_video_malformed_descriptor_witness :
  has_video
    (PDict [ ("formats",
              PList [ PDict [("vcodec", PStr "none")]; PNone;
                      PDict [("vcodec", PStr "vp9")] ]);
             ("is_live", PBool true) ])
  = Raise (Exn "AttributeError" "'NoneType' object has no attribute 'get'").
Proof.
  refine (has_video_malformed_descriptor
            [ ("formats",
               PList [ PDict [("vcodec", PStr "none")]; PNone;
                       PDict [("vcodec", PStr "vp9")] ]);
              ("is_live", PBool true) ]
            [PDict [("vcodec", PStr "none")]]
            [PDict [("vcodec", PStr "vp9")]] PNone eq_refl _ eq_refl).
  repeat constructor.
Defined.

(** The scan of the descriptors, on a formats field that is falsy or a
    list of dicts. *)
Lemma formats_scan_structured (d : pydict) :
  (py_truthy (dict_get d "formats") = false \/
   exists l, dict_get d "formats" = PList l /\
             Forall (fun f => is_dict f = true) l) ->
  (formats <-- py_iter (py_or (dict_get d "formats") (PList []));
   formats_loop formats)%result
  = Ok (existsb codec_counts (formats_of (PDict d))).
Proof.
  intros H. unfold formats_of. destruct H as [Hf|(l & Hl & Hd)].
  - unfold py_or. rewrite Hf. simpl.
    destruct (dict_get d "formats") as [| | | |[|x l]|]; try reflexivity.
    discriminate Hf.
  - rewrite Hl. destruct l as [|x l]; [reflexivity|].
    simpl py_iter. cbn [rbind]. now apply formats_loop_codec_counts.
Qed.

(** X4. On a dict whose formats is falsy or a list of dicts, [has_video]
    does not raise, and it is True exactly when some descriptor has a
    truthy vcodec other than "none" or one of is_live, width, height is
    truthy, whatever the types of these three values. *)
Theorem has_video_on_dicts (d : pydict) :
  (py_truthy (dict_get d "formats") = false \/
   exists l, dict_get d "formats" = PList l /\
             Forall (fun f => is_dict f = true) l) ->
  has_video (PDict d) =
  Ok (existsb codec_counts (formats_of (PDict d))
      || py_truthy (dict_get d "is_live")
      || py_truthy (dict_get d "width")
      || py_truthy (dict_get d "height")).
Proof.
  intros H. pose proof (formats_scan_structured d H) as Hloop.
  unfold has_video. simpl. unfold rbind in *.
  destruct (py_iter (py_or (dict_get d "formats") (PList []))) as [l0|e];
    [|discriminate Hloop].
  rewrite Hloop.
  destruct (existsb codec_counts _); [reflexivity|]. simpl.
  unfold py_or.
  destruct (py_truthy (dict_get d "is_live")) eqn:E1; simpl; rewrite ?E1; auto.
  destruct (py_truthy (dict_get d "width")) eqn:E2; simpl; rewrite ?E2; auto.
  now destruct (py_truthy (dict_get d "height")).
Qed.

Lemma has_video_on_dicts_witness :
  has_video (PDict [("formats", PInt 0); ("width", PStr "1920")]) = Ok true.
Proof.
  exact (has_video_on_dicts [("formats", PInt 0); ("width", PStr "1920")]
           (or_introl eq_refl)).
Defined.

(** ** More on the configuration builder *)

(** X5. The base options hold the four fixed keys followed, in this
    order, by cookiefile, username, password and http_headers, each only
    when its argument is truthy; the keys are distinct, and format,
    merge_output_format and postprocessors are never among them. *)
Theorem build_base_opts_keys (outdir : string) (quiet : bool)
  (c u p : option string) (h : option pydict) :
  dict_keys (build_base_opts outdir quiet c u p h) =
  (["quiet"; "no_warnings"; "outtmpl"; "ignoreerrors"]
   ++ key_if (opt_str_truthy c) "cookiefile"
   ++ key_if (opt_str_truthy u) "username"
   ++ key_if (opt_str_truthy p) "password"
   ++ key_if (opt_dict_truthy h) "http_headers")%list /\
  NoDup (dict_keys (build_base_opts outdir quiet c u p h)) /\
  (forall k, In k ["format"; "merge_output_format"; "postprocessors"] ->
             dict_lookup (build_base_opts outdir quiet c u p h) k = None).
Proof.
  split; [|split].
  3: { intros k [<-|[<-|[<-|[]]]]; rewrite lookup_build_base_opts; simpl;
       now rewrite ?andb_false_r. }
  all: destruct c as [[|a1 s1]|], u as [[|a2 s2]|], p as [[|a3 s3]|],
    h as [[|kv rest]|]; try reflexivity;
    cbv [dict_keys build_base_opts set_opt_str set_opt_headers opt_str_truthy
         opt_dict_truthy py_truthy negb String.eqb Ascii.eqb Bool.eqb
         dict_set map fst];
    repeat (constructor; [simpl; intuition discriminate|]); constructor.
Qed.

(** X6. The per-entry options are the base options followed by format,
    merge_output_format and postprocessors for a video, by format and
    postprocessors for audio; the keys are distinct. *)
Theorem entry_opts_keys (outdir : string) (quiet : bool)
  (c u p : option string) (h : option pydict) (is_video : bool) :
  dict_keys (entry_opts outdir quiet c u p h is_video) =
  (dict_keys (build_base_opts outdir quiet c u p h)
   ++ (if is_video
       then ["format"; "merge_output_format"; "postprocessors"]
       else ["format"; "postprocessors"]))%list /\
  NoDup (dict_keys (entry_opts outdir quiet c u p h is_video)).
Proof.
  destruct is_video, c as [[|a1 s1]|], u as [[|a2 s2]|], p as [[|a3 s3]|],
    h as [[|kv rest]|];
    (split; [reflexivity|]);
    cbv [dict_keys entry_opts dict_update video_update audio_update fold_left
         build_base_opts set_opt_str set_opt_headers opt_str_truthy
         opt_dict_truthy py_truthy negb String.eqb Ascii.eqb Bool.eqb
         dict_set map fst snd];
    repeat (constructor; [simpl; intuition discriminate|]); constructor.
Qed.

(** X7. Apart from format, merge_output_format and postprocessors, the
    per-entry options hold under every key what the base options hold. *)
Theorem entry_opts_extends_base (outdir : string) (quiet : bool)
  (c u p : option string) (h : option pydict) (is_video : bool) (k : string) :
  k <> "format" -> k <> "merge_output_format" -> k <> "postprocessors" ->
  dict_lookup (entry_opts outdir quiet c u p h is_video) k =
  dict_lookup (build_base_opts outdir quiet c u p h) k.
Proof.
  intros H1 H2 H3. apply lookup_entry_opts_base; apply String.eqb_neq; congruence.
Qed.

Lemma entry_opts_extends_base_witness :
  dict_lookup (entry_opts "/out" true None (Some "u") (Some "p") None true)
              "password" = Some (PStr "p").
Proof.
  refine (eq_trans (entry_opts_extends_base "/out" true None (Some "u")
                      (Some "p") None true "password" _ _ _) eq_refl);
    discriminate.
Defined.

(** ** More on the header parser *)

Lemma dict_keys_set (d : pydict) (k : string) (v : pyval) :
  dict_keys (dict_set d k v) =
  if existsb (String.eqb k) (dict_keys d) then dict_keys d
  else (dict_keys d ++ [k])%list.
Proof.
  unfold dict_keys. induction d as [|[k' v'] rest IH]; simpl; [reflexivity|].
  rewrite (String.eqb_sym k k').
  destruct (k' =? k) eqn:E; simpl; [reflexivity|].
  rewrite IH. now destruct (existsb (String.eqb k) (map fst rest)).
Qed.

Lemma dict_set_keeps_nodup (d : pydict) (k : string) (v : pyval) :
  NoDup (dict_keys d) -> NoDup (dict_keys (dict_set d k v)).
Proof.
  intros H. rewrite dict_keys_set.
  destruct (existsb (String.eqb k) (dict_keys d)) eqn:E; [exact H|].
  apply NoDup_app; [exact H|repeat constructor; intros []|].
  intros x Hx [Hk|[]]. subst x.
  assert (existsb (String.eqb k) (dict_keys d) = true).
  { apply existsb_exists. exists k. split; [exact Hx|apply String.eqb_refl]. }
  congruence.
Qed.

Lemma dict_set_keeps_values (P : pyval -> Prop) (d : pydict) (k : string)
  (v : pyval) :
  P v -> Forall (fun kv => P (snd kv)) d ->
  Forall (fun kv => P (snd kv)) (dict_set d k v).
Proof.
  intros Hv. induction 1 as [|[k' v'] rest Hx Hrest IH]; simpl.
  - now repeat constructor.
  - destruct (k' =? k); constructor; auto.
Qed.

Section MoreHeaders.
Context {B : PyBuiltins} {X : External}.

Lemma stringify_fold_well_formed (parsed acc : pydict) :
  NoDup (dict_keys acc) ->
  Forall (fun kv => is_str (snd kv) = true) acc ->
  let out :=
    fold_left (fun a kv => dict_set a (fst kv) (PStr (py_str (snd kv))))
              parsed acc in
  NoDup (dict_keys out) /\ Forall (fun kv => is_str (snd kv) = true) out.
Proof.
  revert acc. induction parsed as [|[k v] rest IH]; intros acc Hn Hs; simpl.
  - now split.
  - apply IH.
    + now apply dict_set_keeps_nodup.
    + now apply (dict_set_keeps_values (fun v => is_str v = true)).
Qed.

Lemma stringify_fixed_point (d : pydict) :
  NoDup (dict_keys d) ->
  Forall (fun kv => is_str (snd kv) = true) d ->
  stringify_items d = d.
Proof.
  intros Hn Hs. rewrite stringify_items_distinct by exact Hn.
  induction Hs as [|[k v] rest Hv _ IH]; simpl; [reflexivity|].
  inversion Hn; subst. rewrite IH by assumption.
  destruct v; try discriminate Hv. reflexivity.
Qed.

(** X8. The header map built from a parsed JSON object has distinct
    keys, only str values, and exactly the keys of the object. *)
Theorem stringify_items_well_formed (parsed : pydict) :
  NoDup (dict_keys (stringify_items parsed)) /\
  Forall (fun kv => is_str (snd kv) = true) (stringify_items parsed) /\
  (forall k, In k (dict_keys (stringify_items parsed)) <->
             In k (dict_keys parsed)).
Proof.
  destruct (stringify_fold_well_formed parsed [] (NoDup_nil _) (Forall_nil _))
    as [Hn Hs].
  split; [exact Hn|]. split; [exact Hs|].
  clear Hn Hs. unfold stringify_items.
  assert (G : forall acc k,
             In k (dict_keys
                     (fold_left
                        (fun a kv => dict_set a (fst kv) (PStr (py_str (snd kv))))
                        parsed acc))
             <-> In k (dict_keys acc) \/ In k (dict_keys parsed)).
  { induction parsed as [|[k0 v0] rest IH]; intros acc k; simpl.
    - tauto.
    - rewrite IH, dict_keys_set.
      destruct (existsb (String.eqb k0) (dict_keys acc)) eqn:E.
      + apply existsb_exists in E as (x & Hx & Hxe).
        apply String.eqb_eq in Hxe. subst x.
        split; [tauto|]. intros [H|[<-|H]]; tauto.
      + rewrite in_app_iff. simpl. tauto. }
  intros k. rewrite G. simpl. tauto.
Qed.

(** X9. Coercing an already coerced header map changes nothing. *)
Theorem stringify_items_idempotent (parsed : pydict) :
  stringify_items (stringify_items parsed) = stringify_items parsed.
Proof.
  destruct (stringify_fold_well_formed parsed [] (NoDup_nil _) (Forall_nil _))
    as [Hn Hs].
  now apply stringify_fixed_point.
Qed.


End MoreHeaders.

(** ** What a batch can do *)

Section Confined.
Context {B : PyBuiltins} {X : External}.
Variable P : event -> Prop.
Variable Q : Z -> Prop.

Lemma confined_ret {A : Type} (a : A) (w : world) : confined P Q (ret a w).
Proof. split; [constructor|discriminate]. Qed.

Lemma confined_throw {A : Type} (e : exn) (w : world) :
  confined P Q (@throw X A e w).
Proof. split; [constructor|discriminate]. Qed.

Lemma confined_lift {A : Type} (r : result A) (w : world) :
  confined P Q (lift r w).
Proof. destruct r; [apply confined_ret|apply confined_throw]. Qed.

Lemma confined_emit (ev : event) (w : world) :
  P ev -> confined P Q (emit ev w).
Proof. intros H. split; [now repeat constructor|discriminate]. Qed.

Lemma confined_call {A : Type} (f : world -> result A * world)
  (record : result A -> event) (w : world) :
  (forall r, P (record r)) -> confined P Q (call f record w).
Proof.
  intros H. unfold call. destruct (f w) as [[a|e] w1];
    (split; [now repeat constructor|discriminate]).
Qed.

Lemma confined_bind {A C : Type} (m : M A) (k : A -> M C) (w : world) :
  confined P Q (m w) ->
  (forall a w1, confined P Q (k a w1)) ->
  confined P Q (bind m k w).
Proof.
  unfold confined, bind, outcome_of, trace_of.
  destruct (m w) as [[[a|e|c] t] w1]; simpl; intros [Ht Hc] Hk;
    try (split; [assumption|]; intros code Hcode;
         first [discriminate Hcode
               |injection Hcode as <-; now apply Hc]).
  specialize (Hk a w1). destruct (k a w1) as [[o t'] w2]. simpl in *.
  destruct Hk as [Ht' Hc']. split; [now apply Forall_app|exact Hc'].
Qed.

Lemma confined_try_except {A : Type} (m : M A) (hd : exn -> M A) (w : world) :
  confined P Q (m w) ->
  (forall e w1, confined P Q (hd e w1)) ->
  confined P Q (try_except m hd w).
Proof.
  unfold confined, try_except, outcome_of, trace_of.
  destruct (m w) as [[[a|e|c] t] w1]; simpl; intros [Ht Hc] Hk;
    try (split; [assumption|]; intros code Hcode;
         first [discriminate Hcode
               |injection Hcode as <-; now apply Hc]).
  specialize (Hk e w1). destruct (hd e w1) as [[o t'] w2]. simpl in *.
  destruct Hk as [Ht' Hc']. split; [now apply Forall_app|exact Hc'].
Qed.

Lemma confined_for_each {A : Type} (l : list A) (body : A -> M unit) :
  (forall x w, confined P Q (body x w)) ->
  forall w, confined P Q (for_each l body w).
Proof.
  intros Hb. induction l as [|x rest IH]; intros w; simpl.
  - apply confined_ret.
  - apply confined_bind; [apply Hb|]. intros _ w1. apply IH.
Qed.

End Confined.

Lemma confined_weaken {A W : Type} (P P' : event -> Prop) (Q Q' : Z -> Prop)
  (r : outcome A * list event * W) :
  (forall ev, P ev -> P' ev) -> (forall c, Q c -> Q' c) ->
  confined P Q r -> confined P' Q' r.
Proof.
  intros HP HQ [Ht Hc]. split; [|auto].
  eapply Forall_impl; [|exact Ht]. exact HP.
Qed.

Section Batch.
Context {B : PyBuiltins} {X : External}.

Lemma download_entries_confined (iou : pyval) (outdir : string)
  (verbose : bool) (c u p : option string) (h : option pydict) (w : world) :
  confined
    (batch_event (build_base_opts outdir (negb verbose) c u p h)
                 (entry_opts outdir (negb verbose) c u p h))
    no_code
    (download_entries iou outdir verbose c u p h w).
Proof.
  set (base := build_base_opts outdir (negb verbose) c u p h).
  set (cfg := entry_opts outdir (negb verbose) c u p h).
  assert (Hpure : forall (A : Type) (r : result A) w1,
             confined (batch_event base cfg) no_code (lift r w1))
    by (intros; apply confined_lift).
  assert (Hout : forall s w1, confined (batch_event base cfg) no_code
                                (print s w1))
    by (intros; now apply confined_emit).
  assert (Herr : forall s w1, confined (batch_event base cfg) no_code
                                (print_err s w1))
    by (intros; now apply confined_emit).
  assert (Hq : forall arg w1, confined (batch_event base cfg) no_code
                                (extract_info base arg w1))
    by (intros; now apply confined_call).
  assert (Hor : forall a (m : M pyval) w1,
             (forall w2, confined (batch_event base cfg) no_code (m w2)) ->
             confined (batch_event base cfg) no_code (or_else a m w1)).
  { intros a m w1 Hm. unfold or_else.
    destruct (py_truthy a); [apply confined_ret|apply Hm]. }
  assert (Hcl : forall entry eu w1,
             confined (batch_event base cfg) no_code
               (classify_entry base entry eu w1)).
  { intros entry eu w1. unfold classify_entry.
    apply confined_try_except.
    - apply confined_bind; [apply Hpure|]. intros formats w2.
      apply confined_bind; [|intros; apply Hpure].
      destruct (negb (py_truthy formats)); [|apply confined_ret].
      apply confined_bind; [apply Hor; intros; apply Hpure|].
      intros arg w3. apply Hq.
    - intros e w2. apply confined_bind; [apply Herr|].
      intros; apply confined_ret. }
  assert (Hpe : forall entry w1,
             confined (batch_event base cfg) no_code
               (process_entry outdir (negb verbose) c u p h base entry w1)).
  { intros entry w1. unfold process_entry.
    destruct (negb (py_truthy entry)); [apply confined_ret|].
    apply confined_bind; [apply Hpure|]. intros webpage_url w2.
    apply confined_bind; [apply Hor; intros; apply Hpure|].
    intros entry_url w3.
    apply confined_bind; [apply Hpure|]. intros title0 w4.
    apply confined_bind.
    { apply Hor. intros w5. apply confined_bind; [apply Hpure|].
      intros; apply confined_ret. }
    intros title w5.
    apply confined_bind; [apply Hout|]. intros _ w6.
    apply confined_bind; [apply Hcl|]. intros is_video w7.
    apply confined_bind; [apply Hout|]. intros _ w8.
    apply confined_try_except.
    - apply confined_bind; [|intros; apply Hout].
      apply confined_call. intros r. simpl. split; [|reflexivity].
      now exists is_video.
    - intros e w9. apply Herr. }
  unfold download_entries. cbv zeta. fold base.
  apply confined_bind.
  - unfold initial_info_of. destruct (is_dict iou); [apply confined_ret|].
    apply confined_try_except.
    + apply confined_bind; [apply Hq|]. intros; apply confined_ret.
    + intros e w1. apply confined_bind; [apply Herr|].
      intros; apply confined_ret.
  - intros [info|] w1; [|apply confined_ret].
    destruct (negb (py_truthy info)); [apply Herr|].
    apply confined_bind; [apply Hpure|]. intros entries w2.
    apply confined_for_each. exact Hpe.
Qed.

(** X11. Whatever its input and whatever the collaborators do, a batch
    only prints, queries metadata with the base options and downloads one
    url at a time with the per-entry options of one of the two kinds; it
    makes no directory, asks nothing, looks for no file and never ends
    with [SystemExit]. *)
Theorem download_entries_events (iou : pyval) (outdir : string)
  (verbose : bool) (c u p : option string) (h : option pydict) (w : world) :
  let run := download_entries iou outdir verbose c u p h w in
  Forall (batch_event (build_base_opts outdir (negb verbose) c u p h)
                      (entry_opts outdir (negb verbose) c u p h))
         (trace_of run) /\
  (forall code, outcome_of run <> SysExit code).
Proof.
  destruct (download_entries_confined iou outdir verbose c u p h w) as [Ht Hc].
  split; [exact Ht|]. intros code Hcode. exact (Hc code Hcode).
Qed.

End Batch.

(** ** The run of one entry, exactly *)

Section MoreRuns.
Context {B : PyBuiltins} {X : External}.

(** The run of one dict entry, from the run of its classification. *)
Lemma process_entry_after_classification (outdir : string) (quiet : bool)
  (c u p : option string) (h : option pydict) (base d : pydict)
  (w w1 : world) (is_video : bool) (t1 : list event) :
  py_truthy (PDict d) = true ->
  classify_entry base (PDict d) (entry_url_of d) w = (Done is_video, t1, w1) ->
  process_entry outdir quiet c u p h base (PDict d) w =
  (Done tt,
   ([announcement d] ++ t1 ++
    [ kind_line is_video;
      Download (entry_opts outdir quiet c u p h is_video) [entry_url_of d]
               (fst (ydl_download (entry_opts outdir quiet c u p h is_video)
                                  [entry_url_of d] w1));
      completion_event
        (fst (ydl_download (entry_opts outdir quiet c u p h is_video)
                           [entry_url_of d] w1)) ])%list,
   snd (ydl_download (entry_opts outdir quiet c u p h is_video)
                     [entry_url_of d] w1)).
Proof.
  intros Ht Hc.
  destruct (process_entry_run outdir quiet c u p h base d w Ht)
    as (b & t1' & w1' & r & w2 & Hc' & Hd & Hrun).
  rewrite Hc in Hc'. injection Hc' as <- <- <-.
  rewrite Hrun, Hd. reflexivity.
Qed.

(** X12. An entry that carries truthy formats is processed without any
    metadata query: the announcement, the report of [has_video]'s
    exception if it raised (the kind is then VIDEO), the line of the
    kind, one download with the options of that kind, and the completion
    line or the failure report. *)
Theorem entry_with_formats_run (outdir : string) (quiet : bool)
  (c u p : option string) (h : option pydict) (base d : pydict) (w : world) :
  py_truthy (dict_get d "formats") = true ->
  let verdict := has_video (PDict d) in
  let cfg := entry_opts outdir quiet c u p h (kind_of verdict) in
  let answer := ydl_download cfg [entry_url_of d] w in
  process_entry outdir quiet c u p h base (PDict d) w =
  (Done tt,
   ([announcement d] ++ map Stderr (analysis_report verdict) ++
    [ kind_line (kind_of verdict);
      Download cfg [entry_url_of d] (fst answer);
      completion_event (fst answer) ])%list,
   snd answer).
Proof.
  intros Hf. cbv zeta.
  assert (Ht : py_truthy (PDict d) = true).
  { destruct d; [discriminate Hf|reflexivity]. }
  apply process_entry_after_classification; [exact Ht|].
  rewrite (classify_entry_with_formats _ _ _ _ Hf).
  now destruct (has_video (PDict d)).
Qed.

(** X13. An entry without formats is processed with one detail query; the
    kind is what [has_video] says of the answer (the entry's own is_live,
    width and height play no part), and VIDEO when the query raises or
    [has_video] raises on the answer, as it does on None. *)
Theorem entry_refreshed_run (outdir : string) (quiet : bool)
  (c u p : option string) (h : option pydict) (base d : pydict) (w : world) :
  py_truthy (PDict d) = true ->
  py_truthy (dict_get d "formats") = false ->
  let query := ydl_extract_info base (detail_arg_of d) w in
  let cfg := entry_opts outdir quiet c u p h (kind_after (fst query)) in
  let answer := ydl_download cfg [entry_url_of d] (snd query) in
  process_entry outdir quiet c u p h base (PDict d) w =
  (Done tt,
   ([announcement d; ExtractInfo base (detail_arg_of d) (fst query)]
    ++ map Stderr (report_after (fst query)) ++
    [ kind_line (kind_after (fst query));
      Download cfg [entry_url_of d] (fst answer);
      completion_event (fst answer) ])%list,
   snd answer).
Proof.
  intros Ht Hf. cbv zeta.
  pose proof (classify_entry_without_formats base d w Hf) as Hc.
  destruct (ydl_extract_info base (detail_arg_of d) w) as [[info|e] w1];
    simpl fst; simpl snd.
  - destruct (has_video info) as [b|e] eqn:Hv;
      rewrite (process_entry_after_classification _ _ _ _ _ _ _ _ _ _ _ _ Ht Hc);
      simpl; rewrite Hv; reflexivity.
  - rewrite (process_entry_after_classification _ _ _ _ _ _ _ _ _ _ _ _ Ht Hc).
    reflexivity.
Qed.

End MoreRuns.

(** ** Batches *)

Section Batches.
Context {B : PyBuiltins} {X : External}.

Lemma bind_ext {A C : Type} (m : M A) (k k' : A -> M C) (w : world) :
  (forall a w1, k a w1 = k' a w1) -> bind m k w = bind m k' w.
Proof.
  intros H. unfold bind. destruct (m w) as [[[a|e|code] t] w1]; try reflexivity.
  now rewrite H.
Qed.

Lemma for_each_app {A : Type} (l l' : list A) (body : A -> M unit)
  (w : world) :
  for_each (l ++ l') body w =
  bind (for_each l body) (fun _ => for_each l' body) w.
Proof.
  revert w. induction l as [|x rest IH]; intros w.
  - symmetry. apply (run_bind_ret tt (fun _ => for_each l' body) w).
  - cbn [app for_each]. rewrite run_bind_bind.
    apply bind_ext. intros _ w1. apply IH.
Qed.

(** X14. In a batch over dict entries, after the top-level query if there
    was one, the metadata queries are exactly one for each resolved entry
    without formats, in order, with that entry's url or id. *)
Theorem detail_queries_of_batch (iou : pyval) (outdir : string)
  (verbose : bool) (c u p : option string) (h : option pydict) (w w0 : world)
  (info : pyval) (t0 : list event) (entries : list pyval) :
  initial_info_of (build_base_opts outdir (negb verbose) c u p h) iou w
    = (Done (Some info), t0, w0) ->
  py_truthy info = true ->
  normalize_entries info = Ok entries ->
  Forall (fun e => is_dict e = true) entries ->
  map call_arg
      (extract_calls
         (trace_of (download_entries iou outdir verbose c u p h w))) =
  (map call_arg (extract_calls t0)
   ++ map detail_arg_of_entry (filter lacks_formats entries))%list.
Proof.
  intros Hi Ht Hn Hd.
  rewrite (download_entries_resolved _ _ _ _ _ _ _ _ _ _ _ _ Hi Ht Hn).
  destruct (for_each_entries_fold outdir (negb verbose) c u p h
              (build_base_opts outdir (negb verbose) c u p h)
              (fun d t => map call_arg (extract_calls t) =
                          if lacks_formats (PDict d) then [detail_arg_of d]
                          else [])
              (fun es t => map call_arg (extract_calls t) =
                           map detail_arg_of_entry
                               (filter lacks_formats (filter py_truthy es))))
    with (entries := entries) (w := w0) as (t & w' & Hrun & HR).
  - intros d w1 Hd1. now apply process_entry_queries.
  - reflexivity.
  - intros d rest t' Hf HR. cbn [filter]. now rewrite Hf.
  - intros d rest t1 t' Hf HS HR. cbn [filter]. rewrite Hf. cbn [filter].
    rewrite extract_calls_app, map_app, HS, HR.
    now destruct (lacks_formats (PDict d)).
  - exact Hd.
  - rewrite Hrun. unfold trace_of. simpl.
    rewrite extract_calls_app, map_app, HR.
    now rewrite (filter_all_true _ _ (normalize_entries_truthy _ _ Ht Hn)).
Qed.

(** X15. A playlist object whose entries are all falsy (every item failed
    to resolve) is a silent no-op: nothing is printed, queried or
    downloaded, and the function returns. *)
Theorem unresolved_playlist_is_skipped (d : pydict) (l : list pyval)
  (outdir : string) (verbose : bool) (c u p : option string)
  (h : option pydict) (w : world) :
  dict_get d "entries" = PList l ->
  l <> [] ->
  Forall (fun e => py_truthy e = false) l ->
  download_entries (PDict d) outdir verbose c u p h w = (Done tt, [], w).
Proof.
  intros Hl Hne Hall.
  assert (Ht : py_truthy (PDict d) = true).
  { destruct d; [discriminate Hl|reflexivity]. }
  assert (Hfilter : filter py_truthy l = []).
  { clear Hl Hne. induction Hall as [|e rest He _ IH]; simpl; [reflexivity|].
    now rewrite He. }
  rewrite (download_entries_resolved (PDict d) outdir verbose c u p h w w
             (PDict d) [] [] eq_refl Ht).
  - reflexivity.
  - rewrite (normalize_entries_list d l Hl Hne). now rewrite Hfilter.
Qed.

(** X16. A truthy entry that is not a dict is not isolated: the
    AttributeError of its missing [get] leaves [download_entries]
    uncaught, after the downloads of the entries before it and without
    those after it. *)
Theorem malformed_entry_aborts_batch (d : pydict) (pre post : list pyval)
  (e : pyval) (outdir : string) (verbose : bool) (c u p : option string)
  (h : option pydict) (w : world) :
  dict_get d "entries" = PList (pre ++ e :: post) ->
  Forall (fun x => is_dict x = true /\ py_truthy x = true) pre ->
  is_dict e = false -> py_truthy e = true ->
  let run := download_entries (PDict d) outdir verbose c u p h w in
  outcome_of run = Throw (attribute_error e "get") /\
  map call_arg (download_calls (trace_of run)) =
    map (fun x => [url_of_entry x]) pre.
Proof.
  intros Hl Hpre He Het. cbv zeta.
  assert (Ht : py_truthy (PDict d) = true).
  { destruct d; [discriminate Hl|reflexivity]. }
  assert (Hne : (pre ++ e :: post)%list <> []) by (now destruct pre).
  assert (Hpre_t : Forall (fun x => py_truthy x = true) pre).
  { eapply Forall_impl; [|exact Hpre]. now intros x [_ Hx]. }
  assert (Hpre_d : Forall (fun x => is_dict x = true) pre).
  { eapply Forall_impl; [|exact Hpre]. now intros x [Hx _]. }
  rewrite (download_entries_resolved (PDict d) outdir verbose c u p h w w
             (PDict d) [] (pre ++ filter py_truthy (e :: post))%list
             eq_refl Ht).
  2: { rewrite (normalize_entries_list d _ Hl Hne), filter_app.
       now rewrite (filter_all_true _ _ Hpre_t). }
  cbn [filter]. rewrite Het.
  destruct (for_each_entries_run outdir (negb verbose) c u p h
              (build_base_opts outdir (negb verbose) c u p h) pre Hpre_d w)
    as (t & w' & Hrun & Hurls & _).
  assert (Hbad : process_entry outdir (negb verbose) c u p h
                   (build_base_opts outdir (negb verbose) c u p h) e w'
                 = (Throw (attribute_error e "get"), [], w')).
  { unfold process_entry. rewrite Het.
    destruct e; try discriminate He; reflexivity. }
  assert (Hloop : for_each (pre ++ e :: filter py_truthy post)
                    (process_entry outdir (negb verbose) c u p h
                       (build_base_opts outdir (negb verbose) c u p h)) w
                  = (Throw (attribute_error e "get"), t, w')).
  { rewrite for_each_app. unfold bind. rewrite Hrun.
    cbn [for_each]. unfold bind. rewrite Hbad. simpl. now rewrite app_nil_r. }
  rewrite Hloop. unfold outcome_of, trace_of. simpl. split; [reflexivity|].
  rewrite Hurls. now rewrite (filter_all_true _ _ Hpre_t).
Qed.

End Batches.

Section Success.
Context {B : PyBuiltins} {X : External}.

Lemma stdout_lines_app (t t' : list event) :
  stdout_lines (t ++ t') = (stdout_lines t ++ stdout_lines t')%list.
Proof. apply flat_map_app. Qed.

Lemma completions_app (t t' : list event) :
  completions (t ++ t') = completions t + completions t'.
Proof.
  unfold completions. now rewrite stdout_lines_app, filter_app, length_app.
Qed.

Lemma carries_formats_verdict (d : pydict) :
  carries_formats (PDict d) = true ->
  py_truthy (dict_get d "formats") = true /\
  exists is_video, has_video (PDict d) = Ok is_video.
Proof.
  simpl. destruct (dict_get d "formats") as [| | | |[|f rest]|] eqn:Hf;
    try discriminate.
  intros Hall. split; [reflexivity|].
  change (forallb is_dict (f :: rest) = true) in Hall.
  assert (Hd : Forall (fun x => is_dict x = true) (f :: rest)).
  { apply Forall_forall. intros x Hx.
    now apply (proj1 (forallb_forall _ _) Hall). }
  pose proof (formats_scan_structured d
                (or_intror (ex_intro _ _ (conj Hf Hd)))) as Hscan.
  unfold has_video. simpl. unfold rbind in *.
  destruct (py_iter (py_or (dict_get d "formats") (PList []))) as [l0|e];
    [|discriminate Hscan].
  rewrite Hscan.
  destruct (existsb codec_counts _); [now eexists|].
  destruct (py_truthy _); now eexists.
Qed.

Lemma process_entry_succeeds (outdir : string) (quiet : bool)
  (c u p : option string) (h : option pydict) (base d : pydict) (w : world) :
  downloads_succeed X ->
  py_truthy (PDict d) = true ->
  exists t w',
    process_entry outdir quiet c u p h base (PDict d) w = (Done tt, t, w') /\
    (carries_formats (PDict d) = true ->
     stderr_lines t = [] /\ completions t = 1).
Proof.
  intros Hok Ht.
  destruct (process_entry_run outdir quiet c u p h base d w Ht)
    as (b & t1 & w1 & r & w2 & Hc & Hd & Hrun).
  do 2 eexists. split; [exact Hrun|]. intros Hcf.
  destruct (carries_formats_verdict d Hcf) as (Hf & v & Hv).
  rewrite (classify_entry_with_formats _ _ _ _ Hf), Hv in Hc.
  injection Hc as <- <- <-.
  destruct (Hok (entry_opts outdir quiet c u p h v) [entry_url_of d] w)
    as (code & Hcode).
  rewrite Hd in Hcode. simpl in Hcode. subst r.
  split; [reflexivity|]. now destruct v.
Qed.

(** X17. When every resolved entry carries a non-empty list of dict
    descriptors and every download succeeds, the batch ends normally with
    nothing on stderr, one completion line and one download per entry,
    and no metadata query beyond the top-level one. *)
Theorem successful_batch_is_silent (iou : pyval) (outdir : string)
  (verbose : bool) (c u p : option string) (h : option pydict) (w w0 : world)
  (info : pyval) (t0 : list event) (entries : list pyval) :
  downloads_succeed X ->
  initial_info_of (build_base_opts outdir (negb verbose) c u p h) iou w
    = (Done (Some info), t0, w0) ->
  py_truthy info = true ->
  normalize_entries info = Ok entries ->
  forallb carries_formats entries = true ->
  let run := download_entries iou outdir verbose c u p h w in
  outcome_of run = Done tt /\
  stderr_lines (trace_of run) = [] /\
  completions (trace_of run) = length entries /\
  length (download_calls (trace_of run)) = length entries /\
  length (extract_calls (trace_of run)) = length (extract_calls t0).
Proof.
  intros Hok Hi Ht Hn Hcf. cbv zeta.
  rewrite (download_entries_resolved _ _ _ _ _ _ _ _ _ _ _ _ Hi Ht Hn).
  assert (Hd : Forall (fun e => is_dict e = true) entries).
  { apply Forall_forall. intros e He.
    pose proof (proj1 (forallb_forall _ _) Hcf e He) as H.
    now destruct e. }
  destruct (for_each_entries_fold outdir (negb verbose) c u p h
              (build_base_opts outdir (negb verbose) c u p h)
              (fun d t => carries_formats (PDict d) = true ->
                          stderr_lines t = [] /\ completions t = 1)
              (fun es t => forallb carries_formats es = true ->
                           stderr_lines t = [] /\ completions t = length es))
    with (entries := entries) (w := w0) as (t & w' & Hrun & HR).
  - intros d w1 Hd1. now apply process_entry_succeeds.
  - now split.
  - intros d rest t' Hf _ Hc. destruct d; [discriminate Hc|discriminate Hf].
  - intros d rest t1 t' Hf HS HR Hc. cbn [forallb] in Hc.
    apply andb_prop in Hc as [Hc1 Hc2].
    destruct (HS Hc1) as [Hs1 Hs2]. destruct (HR Hc2) as [Hr1 Hr2].
    rewrite stderr_lines_app, completions_app, Hs1, Hs2, Hr1, Hr2.
    now split.
  - exact Hd.
  - destruct (HR Hcf) as [Hr1 Hr2].
    destruct (for_each_entries_run outdir (negb verbose) c u p h
                (build_base_opts outdir (negb verbose) c u p h) entries Hd w0)
      as (t' & w'' & Hrun' & Hurls & _).
    rewrite Hrun in Hrun'. injection Hrun' as <- <-.
    destruct (for_each_entries_fold outdir (negb verbose) c u p h
                (build_base_opts outdir (negb verbose) c u p h)
                (fun d t => map call_arg (extract_calls t) =
                            if lacks_formats (PDict d) then [detail_arg_of d]
                            else [])
                (fun es t => forallb carries_formats es = true ->
                             extract_calls t = []))
      with (entries := entries) (w := w0) as (t' & w'' & Hrun' & HQ).
    { intros d w1 Hd1. now apply process_entry_queries. }
    { reflexivity. }
    { intros d rest t' Hf _ Hc. destruct d; [discriminate Hc|discriminate Hf]. }
    { intros d rest t1 t' Hf HS HQ Hc. cbn [forallb] in Hc.
      apply andb_prop in Hc as [Hc1 Hc2].
      destruct (carries_formats_verdict d Hc1) as (Hfm & _).
      simpl lacks_formats in HS. rewrite Hfm in HS. simpl in HS.
      rewrite extract_calls_app, (HQ Hc2), app_nil_r.
      now destruct (extract_calls t1). }
    { exact Hd. }
    rewrite Hrun in Hrun'. injection Hrun' as <- <-.
    rewrite Hrun. unfold outcome_of, trace_of. simpl.
    destruct (initial_info_quiet _ _ _ _ _ _ Hi) as [Hq1 Hq2].
    rewrite stderr_lines_app, completions_app, download_calls_app,
      extract_calls_app, Hq1, Hq2, Hr1, Hr2, (HQ Hcf), app_nil_r.
    assert (Hz : completions t0 = 0).
    { unfold initial_info_of in Hi. destruct (is_dict iou).
      - now injection Hi as <- <- <-.
      - unfold try_except, bind, extract_info, call in Hi.
        destruct (ydl_extract_info _ iou w) as [[i|e] w1]; simpl in Hi;
          [now injection Hi as <- <- <-|discriminate Hi]. }
    rewrite Hz. repeat split.
    + simpl. rewrite <- (length_map call_arg), Hurls, length_map.
      now rewrite (filter_all_true _ _ (normalize_entries_truthy _ _ Ht Hn)).
    + now rewrite app_nil_r.
Qed.

End Success.

(** ** The command line *)

Section Main.
Context {B : PyBuiltins} {X : External}.

Lemma bind_aborted_now {A C : Type} (m : M A) (k : A -> M C) (w : world) :
  aborted (m w) -> aborted (bind m k w).
Proof.
  unfold aborted, bind, outcome_of, trace_of.
  destruct (m w) as [[[a|e|code] t] w1]; simpl; auto.
  intros [H _]. discriminate H.
Qed.

Lemma bind_aborted_later {A C : Type} (m : M A) (k : A -> M C) (w w1 : world)
  (a : A) (t : list event) :
  m w = (Done a, t, w1) -> no_resolution t -> aborted (k a w1) ->
  aborted (bind m k w).
Proof.
  unfold aborted, bind, outcome_of, trace_of, no_resolution.
  intros -> [Hq Hd]. destruct (k a w1) as [[o t'] w2]. simpl.
  intros [Ho [Hq' Hd']]. split; [exact Ho|].
  now rewrite extract_calls_app, download_calls_app, Hq, Hd, Hq', Hd'.
Qed.

Lemma parse_headers_cases (headers_str : option string) (w : world) :
  (exists hdrs, accepted_headers headers_str = Some hdrs /\
                parse_headers headers_str w = (Done hdrs, [], w) /\
                opt_str_truthy headers_str
                && match hdrs with None => true | Some _ => false end = false)
  \/
  (accepted_headers headers_str = None /\
   opt_str_truthy headers_str = true /\
   ((exists line, parse_headers headers_str w = (Done None, [Stderr line], w))
    \/ exists e, parse_headers headers_str w = (Throw e, [], w))).
Proof.
  unfold accepted_headers, parse_headers.
  destruct (opt_str_truthy headers_str) eqn:Ht; cbn [negb].
  2: { left. exists None. now repeat split. }
  destruct headers_str as [s|]; [|discriminate Ht].
  destruct (json_loads s) as [[| | | | |d]|e].
  1-5: right; repeat split; left; eexists; reflexivity.
  - left. exists (Some (stringify_items d)). now repeat split.
  - right. repeat split.
    destruct (exn_class e =? "JSONDecodeError");
      [left|right]; eexists; reflexivity.
Qed.

(** [main] once the directory is made and the headers are accepted. *)
Lemma main_after_headers (args : Args) (w w1 : world) (hdrs : option pydict) :
  os_makedirs (os_path_abspath (arg_outdir args)) w = (Ok tt, w1) ->
  accepted_headers (arg_headers args) = Some hdrs ->
  main args w =
  prepend
    [Makedirs (os_path_abspath (arg_outdir args)) (Ok tt); Stdout legal_notice]
    (bind (consent_step (arg_yes args))
          (fun _ => bind (cookies_step (arg_cookies args))
                         (fun _ => batch_step args hdrs)) w1).
Proof.
  intros Hm Ha. unfold main. cbv zeta.
  unfold bind at 1. unfold makedirs, call. rewrite Hm.
  destruct (parse_headers_cases (arg_headers args) w1)
    as [(hdrs' & Ha' & Hp & Hc)|(Ha' & _)]; [|congruence].
  rewrite Ha in Ha'. injection Ha' as <-.
  unfold bind at 1. rewrite Hp, Hc. rewrite prepend_nil.
  rewrite run_bind_ret. unfold print at 1. rewrite run_bind_emit.
  unfold consent_step, cookies_step, batch_step, declines, consent_prompt.
  destruct (bind _ _ w1) as [[o t] w2]. reflexivity.
Qed.

Lemma batch_step_run (args : Args) (hdrs : option pydict) (w : world) :
  batch_step args hdrs w =
  prepend (auth_events (arg_username args))
    (download_entries (PStr (arg_url args))
       (os_path_abspath (arg_outdir args)) (arg_verbose args)
       (arg_cookies args) (arg_username args) (arg_password args) hdrs w).
Proof.
  unfold batch_step, auth_events.
  destruct (opt_str_truthy (arg_username args)).
  - unfold print. now rewrite run_bind_emit.
  - now rewrite run_bind_ret, prepend_nil.
Qed.

(** X18. With --yes, no cookie file, accepted headers and the output
    directory made, [main] is: the directory, the legal notice, the note
    on credentials when a username is given, then [download_entries] on
    the url with the absolute output directory and the parsed headers. *)
Theorem main_with_yes_runs_batch (args : Args) (w w1 : world)
  (hdrs : option pydict) :
  os_makedirs (os_path_abspath (arg_outdir args)) w = (Ok tt, w1) ->
  accepted_headers (arg_headers args) = Some hdrs ->
  arg_yes args = true ->
  opt_str_truthy (arg_cookies args) = false ->
  main args w =
  prepend
    ([Makedirs (os_path_abspath (arg_outdir args)) (Ok tt); Stdout legal_notice]
     ++ auth_events (arg_username args))
    (download_entries (PStr (arg_url args))
       (os_path_abspath (arg_outdir args)) (arg_verbose args)
       (arg_cookies args) (arg_username args) (arg_password args) hdrs w1).
Proof.
  intros Hm Ha Hy Hc. rewrite (main_after_headers args w w1 hdrs Hm Ha).
  unfold consent_step, cookies_step. rewrite Hy, Hc. cbn [negb].
  rewrite !run_bind_ret, batch_step_run. now rewrite prepend_prepend.
Qed.

End Main.

Section MainRuns.
Context {B : PyBuiltins} {X : External}.

Lemma aborted_prepend {A : Type} (t : list event)
  (r : outcome A * list event * world) :
  no_resolution t -> aborted r -> aborted (prepend t r).
Proof.
  unfold aborted, no_resolution, outcome_of, trace_of.
  destruct r as [[o t'] w]. simpl. intros [Hq Hd] [Ho [Hq' Hd']].
  split; [exact Ho|].
  now rewrite extract_calls_app, download_calls_app, Hq, Hd, Hq', Hd'.
Qed.

Lemma confined_prepend {A : Type} (P : event -> Prop) (Q : Z -> Prop)
  (t : list event) (r : outcome A * list event * world) :
  Forall P t -> confined P Q r -> confined P Q (prepend t r).
Proof.
  unfold confined, outcome_of, trace_of. destruct r as [[o t'] w]. simpl.
  intros Ht [Ht' Hc]. split; [now apply Forall_app|exact Hc].
Qed.

(** [main] stops before the consent: the directory cannot be made, or the
    headers are rejected. *)
Lemma main_stops_early (args : Args) (w : world) :
  (exists e, fst (os_makedirs (os_path_abspath (arg_outdir args)) w) = Raise e)
  \/ accepted_headers (arg_headers args) = None ->
  exists o line_events w1,
    main args w =
      (o,
       Makedirs (os_path_abspath (arg_outdir args))
                (fst (os_makedirs (os_path_abspath (arg_outdir args)) w))
       :: map Stderr line_events, w1) /\
    exit_status o = 1%Z.
Proof.
  intros H. unfold main. cbv zeta.
  unfold bind at 1. unfold makedirs, call.
  destruct (os_makedirs (os_path_abspath (arg_outdir args)) w) as [[[]|e] w1].
  2: { exists (Throw e), [], w1. now split. }
  destruct H as [[e He]|Ha]; [discriminate He|].
  destruct (parse_headers_cases (arg_headers args) w1)
    as [(hdrs' & Ha' & _)|(_ & Ht & [[line Hp]|[e Hp]])]; [congruence| |].
  - unfold bind at 1. rewrite Hp, Ht. simpl.
    exists (SysExit 1), [line], w1. now split.
  - unfold bind at 1. rewrite Hp. simpl.
    exists (Throw e), [], w1. now split.
Qed.

Lemma no_resolution_stderr (ev : event) (lines : list string) :
  match ev with ExtractInfo _ _ _ | Download _ _ _ => False | _ => True end ->
  no_resolution (ev :: map Stderr lines).
Proof.
  intros Hev. unfold no_resolution.
  assert (H : extract_calls (map Stderr lines) = [] /\
              download_calls (map Stderr lines) = []).
  { induction lines as [|l rest [IH1 IH2]]; [now split|]. now split. }
  destruct H as [H1 H2].
  destruct ev; try contradiction; now split.
Qed.

Lemma download_entries_failed_query (url : pyval) (outdir : string)
  (verbose : bool) (c u p : option string) (h : option pydict) (w : world) :
  is_dict url = false ->
  query_failed
    (fst (ydl_extract_info (build_base_opts outdir (negb verbose) c u p h)
                           url w)) = true ->
  download_entries url outdir verbose c u p h w =
  (Done tt,
   [ ExtractInfo (build_base_opts outdir (negb verbose) c u p h) url
       (fst (ydl_extract_info (build_base_opts outdir (negb verbose) c u p h)
                              url w));
     Stderr (resolution_error_msg
               (fst (ydl_extract_info
                       (build_base_opts outdir (negb verbose) c u p h) url w))) ],
   snd (ydl_extract_info (build_base_opts outdir (negb verbose) c u p h) url w)).
Proof.
  intros Hu Hf. unfold download_entries. cbv zeta.
  unfold initial_info_of. rewrite Hu.
  unfold bind, try_except, extract_info, call.
  destruct (ydl_extract_info _ url w) as [[info|e] w1]; simpl in *.
  - apply negb_true_iff in Hf. rewrite Hf. reflexivity.
  - reflexivity.
Qed.

Lemma consent_step_passes (yes : bool) (w : world) :
  (yes = false ->
   exists answer, fst (py_input consent_prompt w) = Ok answer /\
                  declines answer = false) ->
  consent_step yes w =
  (Done tt, fst (after_consent yes w), snd (after_consent yes w)).
Proof.
  intros H. unfold consent_step, after_consent. destruct yes; cbn [negb].
  - reflexivity.
  - destruct (H eq_refl) as (answer & Ha & Hd).
    unfold bind, input, call.
    destruct (py_input consent_prompt w) as [r w1]. simpl in Ha. subst r.
    now rewrite Hd.
Qed.

Lemma cookies_step_passes (cookies : option string) (w : world) :
  (forall path, cookies = Some path -> path <> "" ->
                fst (os_path_isfile path w) = true) ->
  cookies_step cookies w =
  (Done tt, fst (after_cookies cookies w), snd (after_cookies cookies w)).
Proof.
  intros H. unfold cookies_step, after_cookies.
  destruct (opt_str_truthy cookies) eqn:Ht; [|reflexivity].
  destruct cookies as [path|]; [|reflexivity].
  assert (Hne : path <> "").
  { simpl in Ht. now apply negb_true_iff, String.eqb_neq in Ht. }
  specialize (H path eq_refl Hne).
  unfold bind, isfile, print, emit.
  destruct (os_path_isfile path w) as [found w1]. simpl in H. subst found.
  reflexivity.
Qed.

(** [main] once the directory is made, the headers are accepted, the user
    consents and the cookie file is found. *)
Lemma main_reaches_batch (args : Args) (w w1 : world) (hdrs : option pydict) :
  let consent := after_consent (arg_yes args) w1 in
  let cookies := after_cookies (arg_cookies args) (snd consent) in
  os_makedirs (os_path_abspath (arg_outdir args)) w = (Ok tt, w1) ->
  accepted_headers (arg_headers args) = Some hdrs ->
  (arg_yes args = false ->
   exists answer, fst (py_input consent_prompt w1) = Ok answer /\
                  declines answer = false) ->
  (forall path, arg_cookies args = Some path -> path <> "" ->
                fst (os_path_isfile path (snd consent)) = true) ->
  main args w =
  prepend
    ([Makedirs (os_path_abspath (arg_outdir args)) (Ok tt); Stdout legal_notice]
     ++ fst consent ++ fst cookies ++ auth_events (arg_username args))
    (download_entries (PStr (arg_url args))
       (os_path_abspath (arg_outdir args)) (arg_verbose args)
       (arg_cookies args) (arg_username args) (arg_password args) hdrs
       (snd cookies)).
Proof.
  cbv zeta. intros Hm Ha Hy Hc.
  rewrite (main_after_headers args w w1 hdrs Hm Ha).
  unfold bind at 1. rewrite (consent_step_passes _ _ Hy).
  unfold bind at 1. rewrite (cookies_step_passes _ _ Hc).
  rewrite batch_step_run, !prepend_prepend. now rewrite <- !app_assoc.
Qed.

(** X19. Whenever the script reaches the top-level query (the output
    directory was made, the headers were accepted, --yes was given or the
    user answered y or yes, and the --cookies file, if one is named,
    exists) and that query raises or returns nothing, the script reports
    it on stderr and still ends with exit status 0. *)
Theorem failed_resolution_exits_zero (args : Args) (w w1 : world)
  (hdrs : option pydict) :
  let outdir := os_path_abspath (arg_outdir args) in
  let base :=
    build_base_opts outdir (negb (arg_verbose args)) (arg_cookies args)
                    (arg_username args) (arg_password args) hdrs in
  let consent := after_consent (arg_yes args) w1 in
  let cookies := after_cookies (arg_cookies args) (snd consent) in
  let query := ydl_extract_info base (PStr (arg_url args)) (snd cookies) in
  os_makedirs outdir w = (Ok tt, w1) ->
  accepted_headers (arg_headers args) = Some hdrs ->
  (arg_yes args = false ->
   exists answer, fst (py_input consent_prompt w1) = Ok answer /\
                  declines answer = false) ->
  (forall path, arg_cookies args = Some path -> path <> "" ->
                fst (os_path_isfile path (snd consent)) = true) ->
  query_failed (fst query) = true ->
  run_script args w =
  (0%Z,
   ([Makedirs outdir (Ok tt); Stdout legal_notice]
    ++ fst consent ++ fst cookies ++ auth_events (arg_username args)
    ++ [ ExtractInfo base (PStr (arg_url args)) (fst query);
         Stderr (resolution_error_msg (fst query)) ])%list,
   snd query).
Proof.
  cbv zeta. intros Hm Ha Hy Hc Hq. unfold run_script.
  rewrite (main_reaches_batch args w w1 hdrs Hm Ha Hy Hc).
  rewrite (download_entries_failed_query (PStr (arg_url args)) _ _ _ _ _ _ _
             eq_refl Hq).
  cbv [prepend exit_status]. now rewrite <- !app_assoc.
Qed.

(** X20. Whenever the script reaches the top-level query (the output
    directory was made, the headers were accepted, --yes was given or the
    user answered y or yes, and the --cookies file, if one is named,
    exists) and the query resolves to dict entries, the script ends with
    exit status 0 whatever the downloads do, all of them failing
    included, and it has attempted every entry. *)
Theorem failed_downloads_exit_zero (args : Args) (w w1 w0 : world)
  (hdrs : option pydict) (info : pyval) (entries : list pyval) :
  let outdir := os_path_abspath (arg_outdir args) in
  let base :=
    build_base_opts outdir (negb (arg_verbose args)) (arg_cookies args)
                    (arg_username args) (arg_password args) hdrs in
  let consent := after_consent (arg_yes args) w1 in
  let cookies := after_cookies (arg_cookies args) (snd consent) in
  os_makedirs outdir w = (Ok tt, w1) ->
  accepted_headers (arg_headers args) = Some hdrs ->
  (arg_yes args = false ->
   exists answer, fst (py_input consent_prompt w1) = Ok answer /\
                  declines answer = false) ->
  (forall path, arg_cookies args = Some path -> path <> "" ->
                fst (os_path_isfile path (snd consent)) = true) ->
  ydl_extract_info base (PStr (arg_url args)) (snd cookies) = (Ok info, w0) ->
  py_truthy info = true ->
  normalize_entries info = Ok entries ->
  Forall (fun e => is_dict e = true) entries ->
  fst (fst (run_script args w)) = 0%Z /\
  map call_arg (download_calls (snd (fst (run_script args w)))) =
    map (fun e => [url_of_entry e]) entries.
Proof.
  cbv zeta. intros Hm Ha Hy Hc Hq Ht Hn Hd. unfold run_script.
  rewrite (main_reaches_batch args w w1 hdrs Hm Ha Hy Hc).
  set (outdir := os_path_abspath (arg_outdir args)) in *.
  set (base := build_base_opts outdir (negb (arg_verbose args))
                 (arg_cookies args) (arg_username args) (arg_password args)
                 hdrs) in *.
  set (consent := after_consent (arg_yes args) w1) in *.
  set (cookies := after_cookies (arg_cookies args) (snd consent)) in *.
  assert (Hi : initial_info_of base (PStr (arg_url args)) (snd cookies)
               = (Done (Some info),
                  [ExtractInfo base (PStr (arg_url args)) (Ok info)], w0)).
  { unfold initial_info_of, try_except, bind, extract_info, call. simpl.
    now rewrite Hq. }
  rewrite (download_entries_resolved _ _ _ _ _ _ _ _ _ _ _ _ Hi Ht Hn).
  destruct (for_each_entries_run outdir (negb (arg_verbose args))
              (arg_cookies args) (arg_username args) (arg_password args) hdrs
              base entries Hd w0) as (t & w' & Hrun & Hurls & _).
  unfold base in Hrun.
  subst base. rewrite Hrun. cbv [prepend fst snd exit_status].
  split; [reflexivity|].
  assert (Hz : download_calls (auth_events (arg_username args)) = []).
  { unfold auth_events. now destruct (opt_str_truthy (arg_username args)). }
  assert (Hzc : download_calls (let (t1, _) := consent in t1) = []).
  { unfold consent, after_consent. now destruct (arg_yes args). }
  assert (Hzk : download_calls (let (t1, _) := cookies in t1) = []).
  { unfold cookies, after_cookies.
    destruct (opt_str_truthy (arg_cookies args)); [|reflexivity].
    now destruct (arg_cookies args). }
  rewrite !download_calls_app, Hz, Hzc, Hzk. simpl. rewrite Hurls.
  now rewrite (filter_all_true _ _ (normalize_entries_truthy _ _ Ht Hn)).
Qed.

Lemma main_cases (args : Args) (w : world) :
  (exists o lines w1,
     main args w =
       (o, Makedirs (os_path_abspath (arg_outdir args))
                    (fst (os_makedirs (os_path_abspath (arg_outdir args)) w))
           :: map Stderr lines, w1) /\
     exit_status o = 1%Z) \/
  (exists w1 hdrs,
     main args w =
       prepend
         [Makedirs (os_path_abspath (arg_outdir args)) (Ok tt);
          Stdout legal_notice]
         (bind (consent_step (arg_yes args))
               (fun _ => bind (cookies_step (arg_cookies args))
                              (fun _ => batch_step args hdrs)) w1)).
Proof.
  destruct (os_makedirs (os_path_abspath (arg_outdir args)) w)
    as [[[]|e] w1] eqn:Hm.
  - destruct (accepted_headers (arg_headers args)) as [hdrs|] eqn:Ha.
    + right. exists w1, hdrs. now apply main_after_headers.
    + left. rewrite <- Hm. apply main_stops_early. now right.
  - left. rewrite <- Hm. apply main_stops_early. left. exists e.
    now rewrite Hm.
Qed.

Lemma early_stop_aborted (o : outcome unit) (ev : event)
  (lines : list string) (w1 : world) :
  match ev with ExtractInfo _ _ _ | Download _ _ _ => False | _ => True end ->
  exit_status o = 1%Z ->
  aborted (o, ev :: map Stderr lines, w1).
Proof. intros Hev Ho. split; [exact Ho|now apply no_resolution_stderr]. Qed.

Lemma consent_step_cases (yes : bool) (w : world) :
  aborted (consent_step yes w) \/
  exists t w1, consent_step yes w = (Done tt, t, w1) /\ no_resolution t /\
               (yes = true -> t = [] /\ w1 = w) /\
               (forall answer, fst (py_input consent_prompt w) = Ok answer ->
                               yes = false -> declines answer = false).
Proof.
  unfold consent_step. destruct yes; cbn [negb].
  - right. exists [], w. repeat split; discriminate.
  - unfold bind, input, call.
    destruct (py_input consent_prompt w) as [[answer|e] w1]; simpl.
    + destruct (declines answer) eqn:Hd; simpl.
      * left. now repeat split.
      * right. do 2 eexists. split; [reflexivity|].
        repeat split; try discriminate. now intros a [= <-].
    + left. now repeat split.
Qed.

(** X21. Without --yes, when the user does not answer y or yes (or the
    prompt fails), the script ends with exit status 1 before any metadata
    query or download. *)
Theorem declined_consent_aborts (args : Args) (w : world) :
  arg_yes args = false ->
  user_declines X ->
  aborted (main args w).
Proof.
  intros Hy Hu.
  destruct (main_cases args w) as [(o & lines & w1 & -> & Ho)|(w1 & hdrs & ->)].
  - now apply early_stop_aborted.
  - apply aborted_prepend; [now split|]. apply bind_aborted_now.
    destruct (consent_step_cases (arg_yes args) w1)
      as [Hab|(t & w2 & Hrun & _ & _ & Hans)]; [exact Hab|].
    exfalso. destruct (py_input consent_prompt w1) as [[answer|e] w3] eqn:Hin.
    + specialize (Hans answer eq_refl Hy).
      rewrite (Hu w1 answer w3 Hin) in Hans. discriminate Hans.
    + rewrite Hy in Hrun. unfold consent_step, bind, input, call in Hrun.
      simpl in Hrun. rewrite Hin in Hrun. discriminate Hrun.
Qed.

(** X22. With --cookies naming a file that does not exist, the script
    ends with exit status 1 before any metadata query or download. *)
Theorem missing_cookie_file_aborts (args : Args) (path : string) (w : world) :
  arg_cookies args = Some path -> path <> "" ->
  file_missing X path ->
  aborted (main args w).
Proof.
  intros Hc Hp Hmiss.
  destruct (main_cases args w) as [(o & lines & w1 & -> & Ho)|(w1 & hdrs & ->)].
  - now apply early_stop_aborted.
  - apply aborted_prepend; [now split|].
    assert (Hck : forall w2, aborted (bind (cookies_step (arg_cookies args))
                                           (fun _ => batch_step args hdrs) w2)).
    { intros w2. apply bind_aborted_now. unfold cookies_step. rewrite Hc.
      rewrite (opt_str_truthy_some path Hp).
      unfold bind, isfile. specialize (Hmiss w2).
      destruct (os_path_isfile path w2) as [found w3]. simpl in Hmiss.
      subst found. now repeat split. }
    destruct (consent_step_cases (arg_yes args) w1)
      as [Hab|(t & w2 & Hrun & Hn & _)].
    + now apply bind_aborted_now.
    + eapply bind_aborted_later; [exact Hrun|exact Hn|apply Hck].
Qed.

Lemma confined_sys_exit {A : Type} (P : event -> Prop) (Q : Z -> Prop)
  (code : Z) (w : world) :
  Q code -> confined P Q (@sys_exit X A code w).
Proof. intros H. split; [constructor|]. now intros c [= <-]. Qed.

Lemma main_confined (args : Args) (w : world) :
  confined (main_event args) exit_code_one (main args w).
Proof.
  destruct (main_cases args w) as [(o & lines & w1 & -> & Ho)|(w1 & hdrs & ->)].
  - split.
    + constructor; [exact I|]. apply Forall_forall. intros ev Hev.
      apply in_map_iff in Hev as (l & <- & _). exact I.
    + unfold outcome_of. simpl. intros code ->. exact Ho.
  - apply confined_prepend; [now repeat constructor|].
    apply confined_bind.
    { unfold consent_step. destruct (arg_yes args) eqn:Hy; cbn [negb];
        [apply confined_ret|].
      apply confined_bind; [now apply confined_call|]. intros answer w2.
      destruct (declines answer); [|apply confined_ret].
      apply confined_bind; [now apply confined_emit|]. intros _ w3.
      now apply confined_sys_exit. }
    intros _ w2. apply confined_bind.
    { unfold cookies_step.
      destruct (opt_str_truthy (arg_cookies args)) eqn:Hc;
        [|apply confined_ret].
      destruct (arg_cookies args) as [path|] eqn:Hck; [|apply confined_ret].
      apply confined_bind.
      - unfold isfile. destruct (os_path_isfile path w2) as [found w3].
        simpl in Hc. apply negb_true_iff, String.eqb_neq in Hc.
        split; [|discriminate]. constructor; [|constructor].
        simpl. split; [exact Hck|exact Hc].
      - intros found w3. destruct (negb found).
        + apply confined_bind; [now apply confined_emit|]. intros _ w4.
          now apply confined_sys_exit.
        + now apply confined_emit. }
    intros _ w3. rewrite batch_step_run. apply confined_prepend.
    { unfold auth_events. destruct (opt_str_truthy (arg_username args));
        now repeat constructor. }
    eapply confined_weaken; [| |apply download_entries_confined].
    + intros ev. destruct ev; simpl; tauto.
    + intros code [].
Qed.

(** X23. [main] prompts only without --yes, and the only file it looks
    for is the non-empty --cookies path: with --yes there is no prompt,
    without --cookies (or with an empty one) no file is looked for. *)
Theorem main_events (args : Args) (w : world) :
  Forall (main_event args) (trace_of (main args w)) /\
  (arg_yes args = true ->
   forall prompt r, ~ In (Input prompt r) (trace_of (main args w))) /\
  (opt_str_truthy (arg_cookies args) = false ->
   forall path found, ~ In (Isfile path found) (trace_of (main args w))).
Proof.
  destruct (main_confined args w) as [Ht _].
  split; [exact Ht|]. rewrite Forall_forall in Ht. split.
  - intros Hy prompt r Hin. specialize (Ht _ Hin). simpl in Ht. congruence.
  - intros Hc path found Hin. specialize (Ht _ Hin). simpl in Ht.
    destruct Ht as [Hck Hne]. rewrite Hck in Hc. simpl in Hc.
    apply negb_false_iff, String.eqb_eq in Hc. contradiction.
Qed.

(** X24. Once [parser.parse_args()] has returned the arguments (on a
    usage error argparse itself ends the process, with status 2, before
    anything below), the exit status of the script is 0 or 1 whatever the
    collaborators answer or raise: 1 after [sys.exit(1)] or an exception
    left uncaught, 0 when [main] returns. *)
Theorem exit_status_is_zero_or_one (args : Args) (w : world) :
  fst (fst (run_script args w)) = 0%Z \/ fst (fst (run_script args w)) = 1%Z.
Proof.
  destruct (main_confined args w) as [_ Hc]. unfold run_script.
  unfold outcome_of in Hc.
  destruct (main args w) as [[[[]|e|code] t] w1]; simpl in *; auto.
  right. now apply Hc.
Qed.

Lemma trace_of_bind {A C : Type} (m : M A) (k : A -> M C) (w : world) :
  exists rest, trace_of (bind m k w) = (trace_of (m w) ++ rest)%list.
Proof.
  unfold bind, trace_of. destruct (m w) as [[[a|e|code] t] w1]; simpl.
  - destruct (k a w1) as [[o t'] w2]. simpl. now exists t'.
  - exists []. now rewrite app_nil_r.
  - exists []. now rewrite app_nil_r.
Qed.

(** X25. The first thing [main] does is to make the output directory,
    before the headers are looked at; when that raises, nothing else
    happens and the exception is left uncaught. *)
Theorem main_makes_outdir_first (args : Args) (w : world) :
  let outdir := os_path_abspath (arg_outdir args) in
  (exists rest,
     trace_of (main args w) = Makedirs outdir (fst (os_makedirs outdir w)) :: rest)
  /\
  (forall e, fst (os_makedirs outdir w) = Raise e ->
             main args w =
             (Throw e, [Makedirs outdir (Raise e)], snd (os_makedirs outdir w))).
Proof.
  cbv zeta. split.
  - unfold main. cbv zeta.
    match goal with
    | |- context [trace_of (bind ?m ?k w)] =>
        destruct (trace_of_bind m k w) as [rest ->]
    end.
    exists rest. unfold makedirs, call, trace_of.
    now destruct (os_makedirs (os_path_abspath (arg_outdir args)) w)
      as [[[]|e] w1].
  - intros e He. unfold main. cbv zeta. unfold bind at 1.
    unfold makedirs, call.
    destruct (os_makedirs (os_path_abspath (arg_outdir args)) w)
      as [[[]|e'] w1]; simpl in *; [discriminate He|].
    now injection He as <-.
Qed.

End MainRuns.

(** ** Examples of the properties above *)

Lemma build_base_opts_keys_witness :
  dict_lookup (build_base_opts "/out" true None (Some "ana") None None)
              "format" = None.
Proof.
  exact (proj2 (proj2 (build_base_opts_keys "/out" true None (Some "ana")
                         None None)) "format" (or_introl eq_refl)).
Defined.

Lemma stringify_items_well_formed_witness :
  In "B" (dict_keys (@stringify_items sample_builtins
                       [("A", PStr "1"); ("B", PInt 2)])).
Proof.
  apply (proj2 (proj2 (@stringify_items_well_formed sample_builtins
                         [("A", PStr "1"); ("B", PInt 2)]))).
  right. left. reflexivity.
Defined.


Lemma entry_with_formats_run_witness :
  @process_entry sample_builtins playlist3_external "/out" true
    None None None None (build_base_opts "/out" true None None None None)
    (track "b" "Clip" video_formats) tt =
  (Done tt,
   [ Stdout (nl ++ "Processando: Clip");
     Stdout video_msg;
     Download (entry_opts "/out" true None None None None true)
              [PStr "https://example.org/b"] (Raise download_error);
     Stderr "Erro durante o download/processing: ERROR: HTTP Error 403" ],
   tt).
Proof.
  exact (@entry_with_formats_run sample_builtins playlist3_external "/out"
           true None None None None
           (build_base_opts "/out" true None None None None)
           [ ("id", PStr "b"); ("title", PStr "Clip");
             ("webpage_url", PStr "https://example.org/b");
             ("formats", video_formats) ] tt eq_refl).
Defined.

Lemma entry_refreshed_run_witness :
  @process_entry sample_builtins
    (stub_external answers_none (fun _ => Ok 0%Z) "y" []) "/out" true
    None None None None (build_base_opts "/out" true None None None None)
    (PDict flat_item) tt =
  (Done tt,
   [ Stdout (nl ++ "Processando: Talk");
     ExtractInfo (build_base_opts "/out" true None None None None)
                 (PStr "https://example.org/v/x1") (Ok PNone);
     Stderr ("Erro ao analisar formats do item: "
             ++ "'NoneType' object has no attribute 'get'"
             ++ ". Tentando fallback assumindo vídeo.");
     Stdout video_msg;
     Download (entry_opts "/out" true None None None None true)
              [PStr "https://example.org/v/x1"] (Ok 0%Z);
     Stdout " --> Concluído." ],
   tt).
Proof.
  exact (@entry_refreshed_run sample_builtins
           (stub_external answers_none (fun _ => Ok 0%Z) "y" []) "/out"
           true None None None None
           (build_base_opts "/out" true None None None None)
           flat_item tt eq_refl eq_refl).
Defined.

Lemma detail_queries_of_batch_witness :
  map call_arg
    (extract_calls
       (trace_of (@download_entries sample_builtins flat_item_external
                    (PDict mixed_playlist) "/out" false None None None None
                    tt)))
  = [PStr "https://example.org/v/x1"].
Proof.
  refine (@detail_queries_of_batch sample_builtins flat_item_external
            (PDict mixed_playlist) "/out" false None None None None tt tt
            (PDict mixed_playlist) []
            [track "a" "Intro" audio_formats; PDict flat_item]
            eq_refl eq_refl eq_refl _).
  repeat constructor.
Defined.

Lemma unresolved_playlist_is_skipped_witness :
  @download_entries sample_builtins playlist3_external
    (PDict unresolved_playlist) "/out" false None None None None tt
  = (Done tt, [], tt).
Proof.
  refine (@unresolved_playlist_is_skipped sample_builtins playlist3_external
            unresolved_playlist [PNone; PNone] "/out" false None None None
            None tt eq_refl _ _).
  - discriminate.
  - repeat constructor.
Defined.

Lemma malformed_entry_aborts_batch_witness :
  let run :=
    @download_entries sample_builtins playlist3_ok_external
      (PDict broken_playlist) "/out" false None None None None tt in
  outcome_of run
  = Throw (Exn "AttributeError" "'str' object has no attribute 'get'") /\
  map call_arg (download_calls (trace_of run))
  = [[PStr "https://example.org/a"]].
Proof.
  refine (@malformed_entry_aborts_batch sample_builtins playlist3_ok_external
            broken_playlist [track "a" "Intro" audio_formats]
            [track "c" "Outro" audio_formats] (PStr "oops") "/out" false
            None None None None tt eq_refl _ eq_refl eq_refl).
  repeat constructor.
Defined.

Lemma successful_batch_is_silent_witness :
  let run :=
    @download_entries sample_builtins playlist3_ok_external
      (PStr "https://example.org/pl") "/out" false None None None None tt in
  outcome_of run = Done tt /\
  stderr_lines (trace_of run) = [] /\
  completions (trace_of run) = 3 /\
  length (download_calls (trace_of run)) = 3 /\
  length (extract_calls (trace_of run)) = 1.
Proof.
  refine (@successful_batch_is_silent sample_builtins playlist3_ok_external
            (PStr "https://example.org/pl") "/out" false None None None None
            tt tt playlist3
            [ExtractInfo (build_base_opts "/out" true None None None None)
               (PStr "https://example.org/pl") (Ok playlist3)]
            [ track "a" "Intro" audio_formats; track "b" "Clip" video_formats;
              track "c" "Outro" audio_formats ]
            _ eq_refl eq_refl eq_refl eq_refl).
  intros opts urls w. now exists 0%Z.
Defined.

Lemma main_with_yes_runs_batch_witness :
  @main sample_builtins playlist3_ok_external (sample_args None false) tt =
  prepend
    [Makedirs "/home/u/downloads" (Ok tt); Stdout legal_notice]
    (@download_entries sample_builtins playlist3_ok_external
       (PStr "https://example.org/pl") "/home/u/downloads" false
       None None None None tt).
Proof.
  exact (@main_with_yes_runs_batch sample_builtins playlist3_ok_external
           (sample_args None false) tt tt None eq_refl eq_refl eq_refl
           eq_refl).
Defined.

Lemma failed_resolution_exits_zero_witness :
  @run_script sample_builtins offline_external interactive_args tt =
  (0%Z,
   [ Makedirs "/home/u/downloads" (Ok tt); Stdout legal_notice;
     Input consent_prompt (Ok "y");
     Isfile "cookies.txt" true;
     Stdout "Usando cookies a partir de: cookies.txt";
     Stdout "Usando autenticação por usuário/senha (password não será exibida).";
     ExtractInfo
       (build_base_opts "/home/u/downloads" true (Some "cookies.txt")
          (Some "ana") (Some "secret") None)
       (PStr "https://example.org/pl") (Raise unavailable);
     Stderr "Erro ao extrair informações iniciais da URL: ERROR: Video unavailable" ],
   tt).
Proof.
  refine (@failed_resolution_exits_zero sample_builtins offline_external
            interactive_args tt tt None eq_refl eq_refl _ _ eq_refl).
  - intros _. exists "y". split; reflexivity.
  - intros path Hp _. injection Hp as <-. reflexivity.
Defined.

Lemma failed_downloads_exit_zero_witness :
  let run :=
    @run_script sample_builtins failing_external interactive_args tt in
  fst (fst run) = 0%Z /\
  map call_arg (download_calls (snd (fst run))) =
    [ [PStr "https://example.org/a"]; [PStr "https://example.org/b"];
      [PStr "https://example.org/c"] ].
Proof.
  refine (@failed_downloads_exit_zero sample_builtins failing_external
            interactive_args tt tt tt None playlist3
            [ track "a" "Intro" audio_formats; track "b" "Clip" video_formats;
              track "c" "Outro" audio_formats ]
            eq_refl eq_refl _ _ eq_refl eq_refl eq_refl _).
  - intros _. exists "y". split; reflexivity.
  - intros path Hp _. injection Hp as <-. reflexivity.
  - repeat constructor.
Defined.

Lemma declined_consent_aborts_witness :
  aborted (@main sample_builtins refusing_external prompted_args tt).
Proof.
  refine (@declined_consent_aborts sample_builtins refusing_external
            prompted_args tt eq_refl _).
  intros w answer w' H. injection H as <- _. reflexivity.
Defined.

Lemma missing_cookie_file_aborts_witness :
  aborted (@main sample_builtins playlist3_ok_external cookie_args tt).
Proof.
  refine (@missing_cookie_file_aborts sample_builtins playlist3_ok_external
            cookie_args "cookies.txt" tt eq_refl _ _).
  - discriminate.
  - intros w. reflexivity.
Defined.

Lemma main_events_witness :
  ~ In (Input consent_prompt (Ok "y"))
       (trace_of (@main sample_builtins playlist3_ok_external
                    (sample_args None false) tt)).
Proof.
  exact (proj1 (proj2 (@main_events sample_builtins playlist3_ok_external
                         (sample_args None false) tt))
               eq_refl consent_prompt (Ok "y")).
Defined.

Lemma main_makes_outdir_first_witness :
  @main sample_builtins readonly_external (sample_args None false) tt =
  (Throw permission_denied,
   [Makedirs "/home/u/downloads" (Raise permission_denied)], tt).
Proof.
  exact (proj2 (@main_makes_outdir_first sample_builtins readonly_external
                  (sample_args None false) tt) permission_denied eq_refl).
Defined.
